(** * The Civo network resource of the Terraform provider

    A shallow embedding of [civo/network/resource_network.go]: the schema,
    the four CRUD handlers, the diff-customisation hook and the
    delete-confirmation poller, followed by the properties the
    specification states about them.

    The handlers are stateful Go functions working on a [*schema.ResourceData]
    and a [*civogo.Client]; here they are functions in a small state monad
    whose state holds the resource data, the client's region, the backend
    behind the client, a logical clock and the trace of backend calls. *)

From Stdlib Require Import ZArith NArith Lia List.
From stdpp Require Import base strings gmap list.

Local Open Scope string_scope.
Local Open Scope Z_scope.
Local Open Scope list_scope.

(** ** Go error values *)

(** The [error] values the handlers can see.  The client's errors are either
    the distinguished [civogo.DatabaseNetworkNotFoundError] or anything else;
    the [retry] package adds its own three; [fmt.Errorf] builds the last. *)
Inductive error :=
| DatabaseNetworkNotFoundError
| ClientError (msg : string)
| TimeoutError (LastState : string) (Timeout : Z)
| UnexpectedStateError (State : string)
| NotFoundError (Retries : nat)
| Errorf (msg : string).

(** [errors.Is(err, civogo.DatabaseNetworkNotFoundError)] *)
Definition is_DatabaseNetworkNotFoundError (e : error) : bool :=
  match e with DatabaseNetworkNotFoundError => true | _ => false end.

(** ** civogo: the structs of the API client that the handlers use *)

Module Network.
Record t := mk {
    ID : string;
    Name : string;
    Default : bool;
    CIDR : string;
    Label : string;
    NameserversV4 : list string }.
(** [civogo.Network{}] *)
Definition zero : t := mk "" "" false "" "" [].
End Network.

Module VLANConnectConfig.
Record t := mk {
    VlanID : Z;
    PhysicalInterface : string;
    CIDRv4 : string;
    GatewayIPv4 : string;
    AllocationPoolV4Start : string;
    AllocationPoolV4End : string }.
End VLANConnectConfig.

Module NetworkConfig.
Record t := mk {
    Label : string;
    CIDRv4 : string;
    Region : string;
    NameserversV4 : list string;
    VLanConfig : option VLANConnectConfig.t }.
End NetworkConfig.

Module NetworkResult.
Record t := mk { ID : string; Label : string; Result : string }.
End NetworkResult.

Module FirewallConfig.
Record t := mk { Name : string; NetworkID : string; Region : string }.
End FirewallConfig.

Module FirewallResult.
Record t := mk { ID : string; Name : string; Result : string }.
End FirewallResult.

Module SimpleResponse.
Record t := mk { ID : string; Result : string }.
End SimpleResponse.

(** ** The backend behind the client *)

(** One constructor per request the handlers send.  The region is the
    client's [Region] at the time of the call (the client sends it with
    every request); the two configuration structs carry it themselves. *)
Inductive Call :=
| CCreateNetwork (configs : NetworkConfig.t)
| CListNetworks (region : string)
| CRenameNetwork (label id region : string)
| CUpdateNetwork (id : string) (configs : NetworkConfig.t)
| CDeleteNetwork (id region : string)
| CGetNetwork (id region : string)
| CNewFirewall (configs : FirewallConfig.t).

(** Requests that change something at the backend. *)
Definition mutating (c : Call) : bool :=
  match c with
  | CListNetworks _ | CGetNetwork _ _ => false
  | _ => true
  end.



Definition is_rename (c : Call) : bool :=
  match c with CRenameNetwork _ _ _ => true | _ => false end.

Definition is_update (c : Call) : bool :=
  match c with CUpdateNetwork _ _ => true | _ => false end.

(** The methods of [*civogo.Client] that the handlers call, over a backend
    of type [B].  A Go method returning a pointer and an [error] is a sum here: the
    handlers look at the result only when the error is nil.  [ListNetworks]
    keeps both components, because the Read handler tests [resp == nil]
    after an error ([None] is the nil slice).  [latency] is the time a call
    takes, in milliseconds. *)
Class Client (B : Type) := {
  CreateNetwork : NetworkConfig.t -> B -> (NetworkResult.t + error) * B;
  ListNetworks : string -> B -> (option (list Network.t) * option error) * B;
  RenameNetwork : string -> string -> string -> B -> (NetworkResult.t + error) * B;
  UpdateNetwork : string -> NetworkConfig.t -> B -> (NetworkResult.t + error) * B;
  DeleteNetwork : string -> string -> B -> (SimpleResponse.t + error) * B;
  GetNetwork : string -> string -> B -> (Network.t + error) * B;
  NewFirewall : FirewallConfig.t -> B -> (FirewallResult.t + error) * B;
  latency : Call -> B -> N }.

(** ** helper/schema: values, schema and resource data *)

Inductive Item := IBool (b : bool) | IInt (n : Z) | IString (s : string).

(** A value of Go's [interface{}] as the schema produces it: a bool, an
    int, a string, or a [[]interface{}] of primitive items. *)
Inductive Value :=
| VBool (b : bool)
| VInt (n : Z)
| VString (s : string)
| VList (l : list Item).

#[global] Instance Item_eq_dec : EqDecision Item.
Proof. solve_decision. Defined.

#[global] Instance Value_eq_dec : EqDecision Value.
Proof. solve_decision. Defined.

Inductive ValueType := TypeBool | TypeInt | TypeString | TypeList.

Definition Zero (ty : ValueType) : Value :=
  match ty with
  | TypeBool => VBool false
  | TypeInt => VInt 0
  | TypeString => VString ""
  | TypeList => VList []
  end.

Module Schema.
Record t := mk {
    Type_ : ValueType;
    Required : bool;
    Optional : bool;
    ForceNew : bool;
    Computed : bool }.
End Schema.

(** The [Schema] map of [ResourceNetwork]. *)
Definition ResourceNetworkSchema : gmap string Schema.t :=
  list_to_map [
    ("label", Schema.mk TypeString true false false false);
    ("region", Schema.mk TypeString false true true true);
    ("cidr_v4", Schema.mk TypeString false true false true);
    ("nameservers_v4", Schema.mk TypeList false true false true);
    ("name", Schema.mk TypeString false false false true);
    ("default", Schema.mk TypeBool false false false true);
    ("vlan_id", Schema.mk TypeInt false true false false);
    ("vlan_cidr_v4", Schema.mk TypeString false true false false);
    ("vlan_gateway_ip_v4", Schema.mk TypeString false true false false);
    ("vlan_physical_interface", Schema.mk TypeString false true false false);
    ("vlan_allocation_pool_v4_start", Schema.mk TypeString false true false false);
    ("vlan_allocation_pool_v4_end", Schema.mk TypeString false true false false) ].

Definition zeroOf (key : string) : Value :=
  match ResourceNetworkSchema !! key with
  | Some s => Zero (Schema.Type_ s)
  | None => VString ""
  end.

(** [schema.ResourceData]: the identifier, the prior state, the planned
    values (state merged with configuration and diff) and what the handler
    has written with [Set].  [Get] reads the topmost level that has the key,
    [GetChange] compares the prior state with the plan. *)
Record ResourceData := mkResourceData {
  rdId : string;
  rdState : gmap string Value;
  rdPlan : gmap string Value;
  rdSet : gmap string Value }.

Definition lookupOr (m : gmap string Value) (key : string) : Value :=
  match m !! key with Some v => v | None => zeroOf key end.

Definition Get (d : ResourceData) (key : string) : Value :=
  match rdSet d !! key with
  | Some v => v
  | None => lookupOr (rdPlan d) key
  end.

(** [GetOk]: the value, and whether it is set to something other than the
    zero value of its type. *)
Definition GetOk (d : ResourceData) (key : string) : Value * bool :=
  let v := Get d key in (v, bool_decide (v ≠ zeroOf key)).

Definition GetChange (d : ResourceData) (key : string) : Value * Value :=
  (lookupOr (rdState d) key, lookupOr (rdPlan d) key).

Definition HasChange (d : ResourceData) (key : string) : bool :=
  let '(o, n) := GetChange d key in bool_decide (o ≠ n).

Definition Id (d : ResourceData) : string := rdId d.

Definition SetId (v : string) (d : ResourceData) : ResourceData :=
  mkResourceData v (rdState d) (rdPlan d) (rdSet d).

Definition Set_ (key : string) (v : Value) (d : ResourceData) : ResourceData :=
  mkResourceData (rdId d) (rdState d) (rdPlan d) (<[key := v]> (rdSet d)).

(** Type assertions.  In Go a failed assertion [x.(T)] panics; the SDK hands
    a handler only values of the type its schema declares, so the handlers
    never hit the other constructors, where these accessors return the zero
    value to stay total. *)
Definition asString (v : Value) : string :=
  match v with VString s => s | _ => "" end.

Definition asInt (v : Value) : Z :=
  match v with VInt n => n | _ => 0 end.

(** [schema.ResourceDiff], as far as the hook reads it: the identifier of the
    prior state (empty when there is none) and the old and new values. *)
Record ResourceDiff := mkResourceDiff {
  diffId : string;
  diffOld : gmap string Value;
  diffNew : gmap string Value }.

Definition DiffId (d : ResourceDiff) : string := diffId d.

Definition DiffHasChange (d : ResourceDiff) (key : string) : bool :=
  bool_decide (lookupOr (diffOld d) key ≠ lookupOr (diffNew d) key).

(** ** diag: diagnostics *)

Inductive fmtArg := AStr (s : string) | AErr (e : error).

(** A diagnostic of severity error, as [diag.Errorf] builds it.  The summary
    is kept as the format string and its arguments. *)
Record Diagnostic := mkDiagnostic {
  Summary : string;
  Args : list fmtArg }.

Definition Diagnostics := list Diagnostic.

Definition diag_Errorf (format : string) (args : list fmtArg) : Diagnostics :=
  [mkDiagnostic format args].

Definition HasError (ds : Diagnostics) : bool :=
  match ds with [] => false | _ => true end.

(** ** resource_network.go *)

Definition expandStringList (input : Value) : list string :=
  match input with
  | VList inputList =>
      flat_map (fun item => match item with IString str => [str] | _ => [] end)
               inputList
  | _ => []
  end.

(** [d.Set("nameservers_v4", xs)] with [xs : []string]. *)
Definition stringList (xs : list string) : Value := VList (map IString xs).


(** ** The state the handlers run in *)

Inductive Event :=
| EvCall (c : Call)
| EvSleep (ms : Z).

(** The requests in a trace, in order. *)
Definition callsOf (evs : list Event) : list Call :=
  flat_map (fun ev => match ev with EvCall c => [c] | EvSleep _ => [] end) evs.

Section Provider.

Context {B : Type} `{!Client B}.

(** [utils.ParseErrorResponse] applied to [err.Error()]: the custom error
    when the payload parses, nothing when it does not.  The helper lives in
    [internal/utils], outside the files at hand, and is a parameter here. *)
Variable ParseErrorResponse : error -> option error.

(** [rd] is the handler's [d], [Region] and [backend] the client [m],
    [now] the clock in milliseconds, [trace] what has happened so far. *)
Record St := mkSt {
  rd : ResourceData;
  Region : string;
  backend : B;
  now : Z;
  trace : list Event }.

Definition M (A : Type) : Type := St -> A * St.

Definition ret {A} (a : A) : M A := fun s => (a, s).

Definition bind {A C} (m : M A) (k : A -> M C) : M C :=
  fun s => let '(a, s') := m s in k a s'.

Notation "x <- m ;; k" := (bind m (fun x => k))
  (at level 100, m at next level, right associativity).
Notation "m ;; k" := (bind m (fun _ => k))
  (at level 100, right associativity).

Definition getD : M ResourceData := fun s => (rd s, s).

Definition modifyD (f : ResourceData -> ResourceData) : M unit :=
  fun s => (tt, mkSt (f (rd s)) (Region s) (backend s) (now s) (trace s)).

Definition getRegion : M string := fun s => (Region s, s).

Definition setRegion (r : string) : M unit :=
  fun s => (tt, mkSt (rd s) r (backend s) (now s) (trace s)).

(** One request to the backend: the backend answers and moves on, the clock
    advances by the latency of the call, the trace records the request. *)
Definition call {R} (c : Call) (op : B -> R * B) : M R :=
  fun s =>
    let '(r, b') := op (backend s) in
    (r, mkSt (rd s) (Region s) b'
             (now s + Z.of_N (latency c (backend s)))
             (trace s ++ [EvCall c])).

(** [time.After]: the clock advances, the trace records the pause. *)
Definition sleep (ms : Z) : M unit :=
  fun s => (tt, mkSt (rd s) (Region s) (backend s) (now s + ms)
                     (trace s ++ [EvSleep ms])).

(** The statement every handler starts with:
    [if region, ok := d.GetOk("region"); ok { apiClient.Region = region.(string) }] *)
Definition overwriteRegion : M unit :=
  d <- getD ;;
  let '(region, ok) := GetOk d "region" in
  if ok then setRegion (asString region) else ret tt.

(** The hook receives the diff and the client [meta]; it is a computation in
    the handlers' monad like the rest. *)
Definition customizeDiffNetwork (d : ResourceDiff) : M (option error) :=
  if bool_decide (DiffId d ≠ "") && DiffHasChange d "cidr_v4"
  then ret (Some (Errorf "the 'cidr_v4' field is immutable"))
  else ret None.

(** The elements of a slice; a nil slice has none. *)
Definition elems {A} (resp : option (list A)) : list A :=
  match resp with Some xs => xs | None => [] end.

(** The [for _, net := range resp] loop of the Read handler. *)
Definition findCurrentNetwork (id : string) (resp : list Network.t) : Network.t :=
  fold_left (fun CurrentNetwork net =>
               if bool_decide (Network.ID net = id) then net else CurrentNetwork)
            resp Network.zero.

Definition resourceNetworkRead : M Diagnostics :=
  overwriteRegion ;;
  region <- getRegion ;;
  r <- call (CListNetworks region) (ListNetworks region) ;;
  let '(resp, err) := r in
  match err with
  | Some e =>
      match resp with
      | None => modifyD (SetId "") ;; ret []
      | Some _ => ret (diag_Errorf "[ERR] failed to list the network: %s" [AErr e])
      end
  | None =>
      d <- getD ;;
      let CurrentNetwork := findCurrentNetwork (Id d) (elems resp) in
      modifyD (Set_ "name" (VString (Network.Name CurrentNetwork))) ;;
      region <- getRegion ;;
      modifyD (Set_ "region" (VString region)) ;;
      modifyD (Set_ "label" (VString (Network.Label CurrentNetwork))) ;;
      modifyD (Set_ "default" (VBool (Network.Default CurrentNetwork))) ;;
      modifyD (Set_ "cidr_v4" (VString (Network.CIDR CurrentNetwork))) ;;
      modifyD (Set_ "nameservers_v4" (stringList (Network.NameserversV4 CurrentNetwork))) ;;
      ret []
  end.

Definition createDefaultFirewall (networkID networkName : string) : M (option error) :=
  region <- getRegion ;;
  let firewallConfig :=
    FirewallConfig.mk (networkName +:+ "-default") networkID region in
  r <- call (CNewFirewall firewallConfig) (NewFirewall firewallConfig) ;;
  match r with
  | inr err => ret (Some err)
  | inl _ => ret None
  end.

(** The request the Create handler builds from [d] and the client's region. *)
Definition createConfigs (d : ResourceData) (region : string) : NetworkConfig.t :=
  let vlanConfig := VLANConnectConfig.mk
    (asInt (Get d "vlan_id"))
    (asString (Get d "vlan_physical_interface"))
    (asString (Get d "vlan_cidr_v4"))
    (asString (Get d "vlan_gateway_ip_v4"))
    (asString (Get d "vlan_allocation_pool_v4_start"))
    (asString (Get d "vlan_allocation_pool_v4_end")) in
  let configs := NetworkConfig.mk
    (asString (Get d "label"))
    (asString (Get d "cidr_v4"))
    region
    (expandStringList (Get d "nameservers_v4"))
    None in
  if 0 <? VLANConnectConfig.VlanID vlanConfig
  then NetworkConfig.mk (NetworkConfig.Label configs) (NetworkConfig.CIDRv4 configs)
         (NetworkConfig.Region configs) (NetworkConfig.NameserversV4 configs)
         (Some vlanConfig)
  else configs.

Definition resourceNetworkCreate : M Diagnostics :=
  overwriteRegion ;;
  d <- getD ;;
  region <- getRegion ;;
  let configs := createConfigs d region in
  r <- call (CCreateNetwork configs) (CreateNetwork configs) ;;
  match r with
  | inr err =>
      let err := match ParseErrorResponse err with
                 | Some customErr => customErr
                 | None => err
                 end in
      ret (diag_Errorf "[ERR] failed to create network: %s" [AErr err])
  | inl network =>
      modifyD (SetId (NetworkResult.ID network)) ;;
      err <- createDefaultFirewall (NetworkResult.ID network)
                                   (NetworkResult.Label network) ;;
      match err with
      | Some err =>
          d <- getD ;;
          ret (diag_Errorf
                 "[ERR] failed to create a new firewall for the network %s: %s"
                 [AStr (asString (Get d "label")); AErr err])
      | None => resourceNetworkRead
      end
  end.

Definition resourceNetworkUpdate : M Diagnostics :=
  overwriteRegion ;;
  d <- getD ;;
  renamed <-
    (if HasChange d "label"
     then
       region <- getRegion ;;
       r <- call (CRenameNetwork (asString (Get d "label")) (Id d) region)
                 (RenameNetwork (asString (Get d "label")) (Id d) region) ;;
       match r with
       | inr _ =>
           ret (diag_Errorf
                  "[ERR] An error occurred while renaming the network %s"
                  [AStr (Id d)])
       | inl _ => ret []
       end
     else ret []) ;;
  if HasError renamed then ret renamed else
  region <- getRegion ;;
  let networkConfig :=
    NetworkConfig.mk "" "" region (expandStringList (Get d "nameservers_v4")) None in
  updated <-
    (if HasChange d "nameservers_v4"
     then
       r <- call (CUpdateNetwork (Id d) networkConfig)
                 (UpdateNetwork (Id d) networkConfig) ;;
       match r with
       | inr err =>
           ret (diag_Errorf
                  "[ERR] An error occurred while updating the nameservers for the network %s: %s"
                  [AStr (Id d); AErr err])
       | inl _ => ret []
       end
     else ret []) ;;
  if HasError updated then ret updated else
  resourceNetworkRead.

(** ** helper/retry: the state-change poller *)

(** What a [Refresh] function hands back as its first result: the closure of
    the Delete handler returns the integer 0, nil ([None] below) or the
    response of the delete request. *)
Inductive RefreshValue :=
| RInt (n : Z)
| RResp (resp : SimpleResponse.t).

Record RefreshResult := mkRefresh {
  res : option RefreshValue;
  currentState : string;
  err : option error }.

(** The fields of [retry.StateChangeConf] that the Delete handler sets;
    durations are in milliseconds. *)
Record StateChangeConf := mkConf {
  Pending : list string;
  Target : list string;
  Refresh : M RefreshResult;
  Timeout : Z;
  Delay : Z;
  MinTimeout : Z;
  NotFoundChecks : nat }.

Inductive Verdict :=
| Done (result : option RefreshValue)
| Abort (result : option RefreshValue) (e : error)
| Retry (notfoundTick : nat).

(** Modelled from the spec: what the poller of the plugin SDK
    ([retry.StateChangeConf.WaitForStateContext], a dependency whose code is
    not among the files at hand) decides after one refresh.  An error aborts;
    a state among [Target] ends the wait with success; a state among
    [Pending] asks for another round; any other state is an error.  A nil
    result without an error counts as the object not being found yet, at
    most [NotFoundChecks] times in a row. *)
Definition verdict (conf : StateChangeConf) (notfoundTick : nat)
    (r : RefreshResult) : Verdict :=
  match err r with
  | Some e => Abort (res r) e
  | None =>
      match res r with
      | None =>
          match Target conf with
          | [] => Done None
          | _ =>
              if (NotFoundChecks conf <? S notfoundTick)%nat
              then Abort None (NotFoundError (S notfoundTick))
              else Retry (S notfoundTick)
          end
      | Some v =>
          if bool_decide (currentState r ∈ Target conf) then Done (Some v)
          else if bool_decide (currentState r ∈ Pending conf) then Retry 0
          else match Pending conf with
               | [] => Retry 0
               | _ => Abort (Some v) (UnexpectedStateError (currentState r))
               end
      end
  end.

(** Modelled from the spec: the backoff between two polls.  The pause
    doubles, stays at or above the minimum polling interval [MinTimeout] and
    at or below ten seconds. *)
Definition nextWait (conf : StateChangeConf) (wait : Z) : Z :=
  let wait := wait * 2 in
  if wait <? MinTimeout conf then MinTimeout conf
  else if 10000 <? wait then 10000
  else wait.

(** Modelled from the spec: the first poll follows the initial delay at once;
    from then on the pause starts at 100 milliseconds. *)
Definition firstWait (wait : Z) : Z := if wait =? 0 then 100 else wait.

Definition WaitResult : Type := option RefreshValue * option error.

Inductive Round :=
| Finished (r : WaitResult) (s : St)
| Continue (wait : Z) (notfoundTick : nat) (lastState : string) (s : St).

(** Modelled from the spec: one round of the poller.  It pauses for [wait],
    calls [Refresh] and acts on the [verdict].  The wait as a whole is
    bounded by [deadline]: when the pause or the refresh runs past it, the
    round ends with the timeout error, whatever the refresh found. *)
Definition round (conf : StateChangeConf) (deadline wait : Z)
    (notfoundTick : nat) (lastState : string) (s : St) : Round :=
  if deadline <=? now s + wait
  then Finished (None, Some (TimeoutError lastState (Timeout conf)))
                (snd (sleep (deadline - now s) s))
  else
    let s1 := snd (sleep wait s) in
    let '(r, s2) := Refresh conf s1 in
    if deadline <=? now s2
    then Finished (None, Some (TimeoutError lastState (Timeout conf))) s2
    else match verdict conf notfoundTick r with
         | Done v => Finished (v, None) s2
         | Abort v e => Finished (v, Some e) s2
         | Retry tick => Continue (nextWait conf (firstWait wait)) tick
                                  (currentState r) s2
         end.

(** Modelled from the spec: the rounds of the poller, one after the other.
    [fuel] bounds their number. *)
Fixpoint refreshLoop (fuel : nat) (conf : StateChangeConf) (deadline wait : Z)
    (notfoundTick : nat) (lastState : string) (s : St)
    : option (WaitResult * St) :=
  match fuel with
  | O => None
  | S fuel =>
      match round conf deadline wait notfoundTick lastState s with
      | Finished r s' => Some (r, s')
      | Continue wait' tick' state' s' =>
          refreshLoop fuel conf deadline wait' tick' state' s'
      end
  end.

(** Every round but the first pauses for at least 200 milliseconds, so this
    many rounds reach the deadline. *)
Definition pollBudget (conf : StateChangeConf) : nat :=
  S (S (Z.to_nat (Timeout conf / 200))).

(** Modelled from the spec: [WaitForStateContext].  After the initial
    [Delay] the poller runs its rounds until one of them finishes; the
    deadline is [Timeout] after the start. *)
Definition WaitForStateContext (conf : StateChangeConf) (s : St)
    : option (WaitResult * St) :=
  let deadline := now s + Timeout conf in
  if deadline <=? now s + Delay conf
  then Some ((None, Some (TimeoutError "" (Timeout conf))),
             snd (sleep (Timeout conf) s))
  else refreshLoop (pollBudget conf) conf deadline 0 0 ""
                   (snd (sleep (Delay conf) s)).

(** ** The Delete handler *)

(** The [Refresh] closure of [deleteStateConf]. *)
Definition deleteRefresh (networkID : string) : M RefreshResult :=
  region <- getRegion ;;
  r <- call (CDeleteNetwork networkID region) (DeleteNetwork networkID region) ;;
  match r with
  | inr err => ret (mkRefresh (Some (RInt 0)) "" (Some err))
  | inl resp =>
      if bool_decide (SimpleResponse.Result resp = "success")
      then
        g <- call (CGetNetwork networkID region) (GetNetwork networkID region) ;;
        match g with
        | inr err =>
            if is_DatabaseNetworkNotFoundError err
            then ret (mkRefresh (Some (RResp resp)) "deleted" None)
            else ret (mkRefresh None "" (Some err))
        | inl _ => ret (mkRefresh (Some (RResp resp)) "deleting" None)
        end
      else ret (mkRefresh (Some (RResp resp)) "exists" None)
  end.

Definition deleteStateConf (networkID : string) : StateChangeConf := {|
  Pending := ["deleting"; "exists"];
  Target := ["deleted"];
  Refresh := deleteRefresh networkID;
  Timeout := 60 * 60 * 1000;
  Delay := 5 * 1000;
  MinTimeout := 3 * 1000;
  NotFoundChecks := 10 |}.

(** [None] only if the poller ran out of rounds, which it does not
    (see [resourceNetworkDelete_total]). *)
Definition resourceNetworkDelete (s : St) : option (Diagnostics * St) :=
  let s := snd (overwriteRegion s) in
  let networkID := Id (rd s) in
  match WaitForStateContext (deleteStateConf networkID) s with
  | None => None
  | Some ((_, Some err), s') =>
      Some (diag_Errorf "error waiting for network (%s) to be deleted: %s"
                        [AStr networkID; AErr err], s')
  | Some ((_, None), s') => Some ([], s')
  end.

End Provider.

Arguments St B : clear implicits.
Arguments mkSt {B} rd Region backend now trace.

(** ** A scripted backend

    A backend that answers each kind of request from a list of prepared
    answers, in order, and every request in [callTime] milliseconds.  It
    gives the properties below concrete runs. *)

Record Script := mkScript {
  creates : list (NetworkResult.t + error);
  lists : list (option (list Network.t) * option error);
  renames : list (NetworkResult.t + error);
  updates : list (NetworkResult.t + error);
  deletes : list (SimpleResponse.t + error);
  gets : list (Network.t + error);
  firewalls : list (FirewallResult.t + error);
  callTime : N }.

Definition exhausted : error := ClientError "no answer left in the script".

Definition pop {A} (dflt : A) (l : list A) : A * list A :=
  match l with
  | [] => (dflt, [])
  | a :: l' => (a, l')
  end.

#[global] Instance Script_Client : Client Script := {|
  CreateNetwork _ b :=
    let '(a, l) := pop (inr exhausted) (creates b) in
    (a, mkScript l (lists b) (renames b) (updates b) (deletes b) (gets b)
                 (firewalls b) (callTime b));
  ListNetworks _ b :=
    let '(a, l) := pop (None, Some exhausted) (lists b) in
    (a, mkScript (creates b) l (renames b) (updates b) (deletes b) (gets b)
                 (firewalls b) (callTime b));
  RenameNetwork _ _ _ b :=
    let '(a, l) := pop (inr exhausted) (renames b) in
    (a, mkScript (creates b) (lists b) l (updates b) (deletes b) (gets b)
                 (firewalls b) (callTime b));
  UpdateNetwork _ _ b :=
    let '(a, l) := pop (inr exhausted) (updates b) in
    (a, mkScript (creates b) (lists b) (renames b) l (deletes b) (gets b)
                 (firewalls b) (callTime b));
  DeleteNetwork _ _ b :=
    let '(a, l) := pop (inr exhausted) (deletes b) in
    (a, mkScript (creates b) (lists b) (renames b) (updates b) l (gets b)
                 (firewalls b) (callTime b));
  GetNetwork _ _ b :=
    let '(a, l) := pop (inr exhausted) (gets b) in
    (a, mkScript (creates b) (lists b) (renames b) (updates b) (deletes b) l
                 (firewalls b) (callTime b));
  NewFirewall _ b :=
    let '(a, l) := pop (inr exhausted) (firewalls b) in
    (a, mkScript (creates b) (lists b) (renames b) (updates b) (deletes b)
                 (gets b) l (callTime b));
  latency _ b := callTime b |}.

Definition emptyScript : Script := mkScript [] [] [] [] [] [] [] 0.

(** Resource data with identifier [id], prior state [old] and plan [new]. *)
Definition resourceData (id : string) (old new : list (string * Value))
    : ResourceData :=
  mkResourceData id (list_to_map old) (list_to_map new) ∅.

(** A start state: client region [region], clock at zero, nothing traced. *)
Definition start (d : ResourceData) (region : string) (b : Script) : St Script :=
  mkSt d region b 0 [].

(** No custom error parses out of any payload. *)
Definition noParse (e : error) : option error := None.

(** ** A steady backend

    A backend on which nothing ever changes: every delete request reports
    success, and every existence check gives the same answer, the network
    when [found] and an error of the service otherwise.  Every request
    takes 150 milliseconds; the handlers send it no other request. *)

Inductive Steady (found : bool) := steady.

#[global] Instance Steady_Client (found : bool) : Client (Steady found) := {|
  CreateNetwork _ b := (inr exhausted, b);
  ListNetworks _ b := ((None, Some exhausted), b);
  RenameNetwork _ _ _ b := (inr exhausted, b);
  UpdateNetwork _ _ b := (inr exhausted, b);
  DeleteNetwork id _ b := (inl (SimpleResponse.mk id "success"), b);
  GetNetwork id _ b :=
    (if found then inl (Network.mk id "" false "" "" [])
     else inr (ClientError "service unavailable"), b);
  NewFirewall _ b := (inr exhausted, b);
  latency _ _ := 150%N |}.

(** ** Example data *)

Definition okResp : SimpleResponse.t := SimpleResponse.mk "net-1" "success".

Definition net1 : Network.t :=
  Network.mk "net-1" "cust-1-net" false "10.0.0.0/24" "lab" ["8.8.8.8"; "1.1.1.1"].

Definition net2 : Network.t :=
  Network.mk "net-2" "cust-1-other" true "10.0.1.0/24" "other" [].

(** An existing network [net-1] with label [lab], nothing planned to change. *)
Definition d1 : ResourceData :=
  resourceData "net-1" [("label", VString "lab")] [("label", VString "lab")].

(** A network about to be created: no identifier, label [lab]. *)
Definition d0 : ResourceData :=
  resourceData "" [] [("label", VString "lab")].

(** The backend on which [net-1] is still found by the first [n] existence
    checks and gone at the next; every delete request reports success. *)
Definition goneAfter (n : nat) : Script :=
  mkScript [] [] [] []
           (repeat (inl okResp) (S n))
           (repeat (inl net1) n ++ [inr DatabaseNetworkNotFoundError])
           [] 150.

(** The backend that creates [net-1], creates its firewall and lists it
    after [net-2]. *)
Definition creating : Script :=
  mkScript [inl (NetworkResult.mk "net-1" "lab" "success")]
           [(Some [net2; net1], None)]
           [] [] [] []
           [inl (FirewallResult.mk "fw-1" "lab-default" "success")] 150.

(** The backend that creates [net-1] and then refuses the firewall. *)
Definition noFirewall : Script :=
  mkScript [inl (NetworkResult.mk "net-1" "lab" "success")]
           [] [] [] [] []
           [inr (ClientError "firewall quota reached")] 150.

(** The backend whose listing does not contain [net-1]. *)
Definition listingOthers : Script :=
  mkScript [] [(Some [net2], None)] [] [] [] [] [] 150.

(** ** More example data *)

Definition okResult : NetworkResult.t := NetworkResult.mk "net-1" "lab" "success".

(** [net-1] as it is, planned to get the label [lab2] and other nameservers. *)
Definition dChanged : ResourceData :=
  resourceData "net-1"
    [("label", VString "lab"); ("nameservers_v4", VList [IString "8.8.8.8"])]
    [("label", VString "lab2"); ("nameservers_v4", VList [IString "1.1.1.1"])].

(** A resource that names its region. *)
Definition dNYC : ResourceData :=
  resourceData "net-3" [("region", VString "NYC1")] [("region", VString "NYC1")].

(** The backend whose first existence check fails with an error of the
    service; a second check would find [net-1] gone. *)
Definition checkFailsFirst : Script :=
  mkScript [] [] [] []
           [inl okResp; inl okResp]
           [inr (ClientError "service unavailable");
            inr DatabaseNetworkNotFoundError]
           [] 150.

(** The backend whose listing comes with an error and with a slice. *)
Definition listingPartial : Script :=
  mkScript [] [(Some [net1], Some (ClientError "listing interrupted"))]
           [] [] [] [] [] 150.

(** The backend that lists [net-2] and [net-1], twice. *)
Definition listingTwice : Script :=
  mkScript [] [(Some [net2; net1], None); (Some [net2; net1], None)]
           [] [] [] [] [] 150.

(** The backend that refuses to create a network. *)
Definition refusing : Script :=
  mkScript [inr (ClientError "network quota reached")] [] [] [] [] [] [] 150.

(** The backend that creates [net-1] and its firewall and then fails to list. *)
Definition notListing : Script :=
  mkScript [inl okResult] [(None, Some (ClientError "service unavailable"))]
           [] [] [] []
           [inl (FirewallResult.mk "fw-1" "lab-default" "success")] 150.

(** The backend that refuses to rename. *)
Definition notRenaming : Script :=
  mkScript [] [] [inr (ClientError "label taken")] [] [] [] [] 150.

(** The backend that renames and then refuses to update. *)
Definition notUpdating : Script :=
  mkScript [] [] [inl okResult] [inr (ClientError "bad nameserver")] [] [] [] 150.

(** The backend that renames, updates and lists. *)
Definition updating : Script :=
  mkScript [] [(Some [net1], None)] [inl okResult] [inl okResult] [] [] [] 150.

(** * The vocabulary of the properties *)

Section Vocabulary.

Context {B : Type} `{!Client B}.

(** The region the client sends with its requests once the handler has
    looked at the [region] attribute. *)
Definition clientRegion (s : St B) : string :=
  let '(region, ok) := GetOk (rd s) "region" in
  if ok then asString region else Region s.

(** The state in which the Create handler sends its first request. *)
Definition ready (s : St B) : St B :=
  mkSt (rd s) (clientRegion s) (backend s) (now s) (trace s).

(** The default firewall the Create handler asks for after [network]. *)
Definition defaultFirewall (network : NetworkResult.t) (region : string)
    : FirewallConfig.t :=
  FirewallConfig.mk (NetworkResult.Label network +:+ "-default")
                    (NetworkResult.ID network) region.

(** What Read writes when the listing comes back without an error. *)
Definition written (cur : Network.t) (region : string) (d : ResourceData)
    : ResourceData :=
  Set_ "nameservers_v4" (stringList (Network.NameserversV4 cur))
    (Set_ "cidr_v4" (VString (Network.CIDR cur))
      (Set_ "default" (VBool (Network.Default cur))
        (Set_ "label" (VString (Network.Label cur))
          (Set_ "region" (VString region)
            (Set_ "name" (VString (Network.Name cur)) d))))).

(** What the backend answers in one poll: the delete request, and the
    existence check when the delete reported success. *)
Inductive PollAnswer :=
| DeleteFailed (e : error)
| NotDeleted (resp : SimpleResponse.t)
| StillFound (resp : SimpleResponse.t)
| Gone (resp : SimpleResponse.t)
| CheckFailed (e : error).

Definition pollAnswer (id : string) (s : St B) : PollAnswer :=
  match DeleteNetwork id (Region s) (backend s) with
  | (inr e, _) => DeleteFailed e
  | (inl resp, b1) =>
      if bool_decide (SimpleResponse.Result resp = "success")
      then match GetNetwork id (Region s) b1 with
           | (inl _, _) => StillFound resp
           | (inr e, _) =>
               if is_DatabaseNetworkNotFoundError e then Gone resp
               else CheckFailed e
           end
      else NotDeleted resp
  end.

Definition isGone (a : PollAnswer) : bool :=
  match a with Gone _ => true | _ => false end.

(** The answers after which the poller goes on polling. *)
Definition isPending (a : PollAnswer) : bool :=
  match a with NotDeleted _ | StillFound _ => true | _ => false end.

Definition refreshOf (a : PollAnswer) : RefreshResult :=
  match a with
  | DeleteFailed e => mkRefresh (Some (RInt 0)) "" (Some e)
  | NotDeleted resp => mkRefresh (Some (RResp resp)) "exists" None
  | StillFound resp => mkRefresh (Some (RResp resp)) "deleting" None
  | Gone resp => mkRefresh (Some (RResp resp)) "deleted" None
  | CheckFailed e => mkRefresh None "" (Some e)
  end.

(** The requests of one poll. *)
Definition pollRequests (id region : string) (a : PollAnswer) : list Call :=
  match a with
  | DeleteFailed _ | NotDeleted _ => [CDeleteNetwork id region]
  | _ => [CDeleteNetwork id region; CGetNetwork id region]
  end.

(** The pause before the next round and the state after it, given the pause
    before this round and the state before it. *)
Definition afterRound (id : string) (ws : Z * St B) : Z * St B :=
  (nextWait (deleteStateConf id) (firstWait (fst ws)),
   snd (deleteRefresh id (snd (sleep (fst ws) (snd ws))))).

Definition roundsFrom (id : string) (k : nat) (ws : Z * St B) : Z * St B :=
  Nat.iter k (afterRound id) ws.

(** The answer of the backend in poll [k] (counted from 0) and the time at
    which that poll is over, were the poller to go on that long. *)
Definition answerFrom (id : string) (ws : Z * St B) (k : nat) : PollAnswer :=
  let ws' := roundsFrom id k ws in
  pollAnswer id (snd (sleep (fst ws') (snd ws'))).

Definition finishFrom (id : string) (ws : Z * St B) (k : nat) : Z :=
  now (snd (roundsFrom id (S k) ws)).

(** What the poller returns when it ends on answer [a], the first answer that
    is not pending.  A pending answer does not end the poller; the value
    given for it is never used. *)
Definition finalResult (a : PollAnswer) : WaitResult :=
  match a with
  | DeleteFailed e => (Some (RInt 0), Some e)
  | CheckFailed e => (None, Some e)
  | Gone resp => (Some (RResp resp), None)
  | NotDeleted _ | StillFound _ => (None, None)
  end.

(** The state in which the first round of the poller starts: the region is
    settled and the initial delay of five seconds is over. *)
Definition polling (s : St B) : St B := snd (sleep 5000 (ready s)).

Definition deleteDiagnostics (id : string) (e : error) : Diagnostics :=
  diag_Errorf "error waiting for network (%s) to be deleted: %s"
              [AStr id; AErr e].

(** The next handler call through the same client, on the resource data
    [d] of another resource: the client keeps the region it was left with. *)
Definition withData (d : ResourceData) (s : St B) : St B :=
  mkSt d (Region s) (backend s) (now s) (trace s).

Definition typeOf (v : Value) : ValueType :=
  match v with
  | VBool _ => TypeBool
  | VInt _ => TypeInt
  | VString _ => TypeString
  | VList _ => TypeList
  end.

(** The attributes the Read handler sets. *)
Definition readAttributes : list string :=
  ["name"; "region"; "label"; "default"; "cidr_v4"; "nameservers_v4"].

End Vocabulary.

(** * Properties *)

Section Properties.

Context {B : Type} `{!Client B}.
Variable ParseErrorResponse : error -> option error.

(** ** The monad, unfolded *)

Lemma bind_eq {A C} (m : M (B:=B) A) (k : A -> M (B:=B) C) (s : St B) :
  bind m k s = k (fst (m s)) (snd (m s)).
Proof. unfold bind. destruct (m s); reflexivity. Qed.

Lemma call_eq {R} (c : Call) (op : B -> R * B) (s : St B) :
  call c op s =
  (fst (op (backend s)),
   mkSt (rd s) (Region s) (snd (op (backend s)))
        (now s + Z.of_N (latency c (backend s))) (trace s ++ [EvCall c])).
Proof. unfold call. destruct (op (backend s)); reflexivity. Qed.

Lemma overwriteRegion_eq (s : St B) :
  overwriteRegion s =
  (tt, mkSt (rd s) (clientRegion s) (backend s) (now s) (trace s)).
Proof.
  unfold overwriteRegion, clientRegion. rewrite bind_eq. cbn.
  destruct (bool_decide _); destruct s; reflexivity.
Qed.

(** ** The immutable-field guard *)

(** C3: the diff-customisation hook returns an error exactly when the
    resource exists (non-empty identifier) and [cidr_v4] differs from its
    prior value; a diff on a new resource (empty identifier) passes whatever
    it changes; and the hook leaves the client, the backend, the clock and
    the trace of requests as they were, so it issues no request. *)
Theorem customizeDiffNetwork_guard (d : ResourceDiff) (s : St B) :
  (fst (customizeDiffNetwork d s) <> None <->
     DiffId d <> "" /\ DiffHasChange d "cidr_v4" = true)
  /\ (forall e, fst (customizeDiffNetwork d s) = Some e ->
        e = Errorf "the 'cidr_v4' field is immutable")
  /\ (DiffId d = "" -> fst (customizeDiffNetwork d s) = None)
  /\ snd (customizeDiffNetwork d s) = s.
Proof.
  unfold customizeDiffNetwork.
  destruct (bool_decide (DiffId d ≠ "")) eqn:Hid;
    destruct (DiffHasChange d "cidr_v4") eqn:Hch; cbn;
    [apply bool_decide_eq_true in Hid | apply bool_decide_eq_true in Hid
    | apply bool_decide_eq_false in Hid | apply bool_decide_eq_false in Hid];
    repeat split; try congruence; try tauto; intros; try discriminate.
  all: try (destruct H as [_ ?]; discriminate).
  all: try (destruct H as [? _]; contradiction).
Qed.

(** ** Create *)

Lemma resourceNetworkCreate_request (s : St B) :
  exists evs,
    trace (snd (resourceNetworkCreate ParseErrorResponse s)) =
    trace s ++ EvCall (CCreateNetwork (createConfigs (rd s) (clientRegion s))) :: evs
    /\ Forall (fun c => match c with CCreateNetwork _ => False | _ => True end)
              (callsOf evs).
Proof.
  unfold resourceNetworkCreate.
  rewrite bind_eq, overwriteRegion_eq. cbn [fst snd].
  rewrite !bind_eq. cbn [getD getRegion fst snd rd Region].
  rewrite call_eq. cbn [fst snd backend].
  destruct (CreateNetwork _ _) as [[network | e] b1]; cbn [fst snd].
  - rewrite !bind_eq. cbn [modifyD fst snd rd Region backend now trace].
    unfold createDefaultFirewall. rewrite !bind_eq.
    cbn [getRegion fst snd Region]. rewrite call_eq. cbn [fst snd backend].
    destruct (NewFirewall _ _) as [[fw | e] b2]; cbn [fst snd ret].
    + unfold resourceNetworkRead.
      rewrite bind_eq, overwriteRegion_eq. cbn [fst snd].
      rewrite !bind_eq. cbn [getRegion fst snd Region].
      rewrite call_eq. cbn [fst snd backend rd Region trace].
      destruct (ListNetworks _ _) as [[resp [e|]] b3]; cbn [fst snd].
      * destruct resp; cbn; rewrite <- !app_assoc; cbn;
          eexists; (split; [reflexivity |]); cbn; repeat constructor.
      * cbn. rewrite <- !app_assoc. cbn.
        eexists; (split; [reflexivity |]); cbn; repeat constructor.
    + cbn. rewrite <- !app_assoc. cbn.
      eexists; (split; [reflexivity |]); cbn; repeat constructor.
  - cbn. eexists; (split; [reflexivity |]); cbn; repeat constructor.
Qed.

(** C9: the create request carries the VLAN configuration, built from the six
    [vlan_*] attributes, exactly when [vlan_id] is greater than 0; with
    [vlan_id] 0 or unset the request has no VLAN configuration at all.  The
    request meant is the one the handler sends: the first event it adds to
    the trace, and its only create request. *)
Theorem create_request_vlan (s : St B) :
  let configs := createConfigs (rd s) (clientRegion s) in
  let vlan_id := asInt (Get (rd s) "vlan_id") in
  (exists evs,
     trace (snd (resourceNetworkCreate ParseErrorResponse s)) =
     trace s ++ EvCall (CCreateNetwork configs) :: evs
     /\ Forall (fun c => match c with CCreateNetwork _ => False | _ => True end)
               (callsOf evs))
  /\ (NetworkConfig.VLanConfig configs <> None <-> 0 < vlan_id)
  /\ (0 < vlan_id ->
      NetworkConfig.VLanConfig configs =
      Some (VLANConnectConfig.mk
              vlan_id
              (asString (Get (rd s) "vlan_physical_interface"))
              (asString (Get (rd s) "vlan_cidr_v4"))
              (asString (Get (rd s) "vlan_gateway_ip_v4"))
              (asString (Get (rd s) "vlan_allocation_pool_v4_start"))
              (asString (Get (rd s) "vlan_allocation_pool_v4_end"))))
  /\ (vlan_id <= 0 -> NetworkConfig.VLanConfig configs = None)
  /\ (rdSet (rd s) !! "vlan_id" = None -> rdPlan (rd s) !! "vlan_id" = None ->
      NetworkConfig.VLanConfig configs = None).
Proof.
  cbv zeta. split; [apply resourceNetworkCreate_request |].
  unfold createConfigs. cbn [VLANConnectConfig.VlanID].
  destruct (0 <? asInt (Get (rd s) "vlan_id")) eqn:Hv; cbn [NetworkConfig.VLanConfig].
  - apply Z.ltb_lt in Hv. repeat split; intros; try congruence; try lia.
    unfold Get, lookupOr in Hv. rewrite H, H0 in Hv. vm_compute in Hv. discriminate.
  - apply Z.ltb_ge in Hv. repeat split; intros; try congruence; try lia.
Qed.

Ltac run :=
  repeat (rewrite ?bind_eq, ?overwriteRegion_eq, ?call_eq;
          cbn [fst snd getD getRegion modifyD ret rd Region backend now trace
               HasError diag_Errorf]).

(** C8: once the backend has created the network, the Create handler asks
    for a firewall named after the network's label followed by [-default],
    attached to the new network's ID; when that request fails the handler
    returns an error, and the resource data already carries the new
    network's identifier. *)
Theorem create_default_firewall (s : St B) (network : NetworkResult.t) (b1 : B) :
  CreateNetwork (createConfigs (rd s) (clientRegion s)) (backend s)
    = (inl network, b1) ->
  let fw := defaultFirewall network (clientRegion s) in
  let out := resourceNetworkCreate ParseErrorResponse s in
  FirewallConfig.Name fw = NetworkResult.Label network +:+ "-default"
  /\ FirewallConfig.NetworkID fw = NetworkResult.ID network
  /\ (exists evs,
        trace (snd out) =
        trace s ++ EvCall (CCreateNetwork (createConfigs (rd s) (clientRegion s)))
                :: EvCall (CNewFirewall fw) :: evs)
  /\ (forall e b2, NewFirewall fw b1 = (inr e, b2) ->
        fst out =
          diag_Errorf "[ERR] failed to create a new firewall for the network %s: %s"
                      [AStr (asString (Get (rd s) "label")); AErr e]
        /\ HasError (fst out) = true
        /\ Id (rd (snd out)) = NetworkResult.ID network
        /\ rd (snd out) = SetId (NetworkResult.ID network) (rd s)
        /\ backend (snd out) = b2).
Proof.
  intros Hc fw out. subst out.
  split; [reflexivity |]. split; [reflexivity |].
  unfold resourceNetworkCreate. run. rewrite Hc. run.
  unfold createDefaultFirewall. run. subst fw. unfold defaultFirewall.
  split.
  - destruct (NewFirewall _ b1) as [[fwr | e] b2]; run.
    + unfold resourceNetworkRead. run.
      match goal with |- context [ListNetworks ?r ?b] =>
        destruct (ListNetworks r b) as [[resp [e|]] b3] end; run.
      * destruct resp; run; rewrite <- !app_assoc; cbn; eexists; reflexivity.
      * rewrite <- !app_assoc; cbn; eexists; reflexivity.
    + rewrite <- !app_assoc; cbn; eexists; reflexivity.
  - intros e b2 Hf. rewrite Hf. run. repeat split.
Qed.

(** ** Read *)

Lemma findCurrentNetwork_app (id : string) (l1 l2 : list Network.t) :
  findCurrentNetwork id (l1 ++ l2) =
  fold_left (fun cur net => if bool_decide (Network.ID net = id) then net else cur)
            l2 (findCurrentNetwork id l1).
Proof. unfold findCurrentNetwork. apply fold_left_app. Qed.

Lemma fold_current_absent (id : string) (l : list Network.t) (cur : Network.t) :
  Forall (fun net => Network.ID net <> id) l ->
  fold_left (fun cur net => if bool_decide (Network.ID net = id) then net else cur)
            l cur = cur.
Proof.
  intros Hl. revert cur. induction Hl as [| net l Hn _ IH]; intros cur; cbn.
  - reflexivity.
  - rewrite bool_decide_eq_false_2 by exact Hn. apply IH.
Qed.

(** A network that is not listed leaves [CurrentNetwork] at its zero value. *)
Lemma findCurrentNetwork_absent (id : string) (resp : list Network.t) :
  Forall (fun net => Network.ID net <> id) resp ->
  findCurrentNetwork id resp = Network.zero.
Proof. apply fold_current_absent. Qed.

(** The loop keeps the last listed network with the identifier. *)
Lemma findCurrentNetwork_last (id : string) (pre post : list Network.t)
    (net : Network.t) :
  Network.ID net = id ->
  Forall (fun n => Network.ID n <> id) post ->
  findCurrentNetwork id (pre ++ net :: post) = net.
Proof.
  intros Hid Hpost. rewrite findCurrentNetwork_app. cbn.
  rewrite bool_decide_eq_true_2 by exact Hid.
  apply fold_current_absent, Hpost.
Qed.

Lemma resourceNetworkRead_listed (s : St B) (resp : option (list Network.t)) (b1 : B) :
  ListNetworks (clientRegion s) (backend s) = ((resp, None), b1) ->
  resourceNetworkRead s =
  ([], mkSt (written (findCurrentNetwork (Id (rd s)) (elems resp))
                     (clientRegion s) (rd s))
            (clientRegion s) b1
            (now s + Z.of_N (latency (CListNetworks (clientRegion s)) (backend s)))
            (trace s ++ [EvCall (CListNetworks (clientRegion s))])).
Proof.
  intros Hl. unfold resourceNetworkRead. run. rewrite Hl. run. reflexivity.
Qed.

(** X1: when the list request fails and returns no slice, Read clears the
    identifier and returns no error. *)
Lemma resourceNetworkRead_gone (s : St B) (e : error) (b1 : B) :
  ListNetworks (clientRegion s) (backend s) = ((None, Some e), b1) ->
  fst (resourceNetworkRead s) = []
  /\ rd (snd (resourceNetworkRead s)) = SetId "" (rd s).
Proof.
  intros Hl. unfold resourceNetworkRead. run. rewrite Hl. run. split; reflexivity.
Qed.

(** When the listing succeeds without the network of the resource, Read
    returns no error, writes the zero values of [civogo.Network{}] and keeps
    the identifier. *)
Lemma resourceNetworkRead_unlisted (s : St B) (nets : list Network.t) (b1 : B) :
  ListNetworks (clientRegion s) (backend s) = ((Some nets, None), b1) ->
  Forall (fun net => Network.ID net <> Id (rd s)) nets ->
  fst (resourceNetworkRead s) = []
  /\ rd (snd (resourceNetworkRead s)) = written Network.zero (clientRegion s) (rd s)
  /\ Id (rd (snd (resourceNetworkRead s))) = Id (rd s).
Proof.
  intros Hl Hn. rewrite (resourceNetworkRead_listed s _ b1 Hl). cbn [fst snd rd elems].
  rewrite (findCurrentNetwork_absent _ _ Hn). repeat split.
Qed.

Lemma clientRegion_ready (s : St B) (id : string) (b : B) (t : Z) (tr : list Event) :
  clientRegion (mkSt (SetId id (rd s)) (clientRegion s) b t tr) = clientRegion s.
Proof.
  unfold clientRegion, GetOk. cbn [rd Region].
  change (Get (SetId id (rd s)) "region") with (Get (rd s) "region").
  destruct (bool_decide _); reflexivity.
Qed.

Ltac get_written :=
  unfold Get, written, Set_; cbn [rdSet];
  repeat (rewrite lookup_insert_ne by discriminate);
  rewrite lookup_insert_eq; reflexivity.

Lemma expandStringList_stringList (xs : list string) :
  expandStringList (stringList xs) = xs.
Proof.
  unfold expandStringList, stringList.
  induction xs as [| x xs IH]; cbn; [reflexivity | now rewrite IH].
Qed.

(** C7 (as amended): when the create and the firewall requests succeed and
    the listing that follows contains the new network, Create followed by
    its read-back writes [name], [label], [default], [cidr_v4] and
    [nameservers_v4] exactly as the last listed entry with the new
    identifier has them, and the nameservers read back from the resource
    data are the listed ones.  [region] is written from the client's region
    (the configured region when set), not from an answer of the backend. *)
Theorem create_read_roundtrip (s : St B) (network : NetworkResult.t) (b1 : B)
    (fwr : FirewallResult.t) (b2 : B) (pre post : list Network.t)
    (net : Network.t) (b3 : B) :
  CreateNetwork (createConfigs (rd s) (clientRegion s)) (backend s)
    = (inl network, b1) ->
  NewFirewall (defaultFirewall network (clientRegion s)) b1 = (inl fwr, b2) ->
  ListNetworks (clientRegion s) b2 = ((Some (pre ++ net :: post), None), b3) ->
  Network.ID net = NetworkResult.ID network ->
  Forall (fun n => Network.ID n <> NetworkResult.ID network) post ->
  let out := resourceNetworkCreate ParseErrorResponse s in
  let d' := rd (snd out) in
  fst out = []
  /\ Id d' = NetworkResult.ID network
  /\ Get d' "name" = VString (Network.Name net)
  /\ Get d' "label" = VString (Network.Label net)
  /\ Get d' "default" = VBool (Network.Default net)
  /\ Get d' "cidr_v4" = VString (Network.CIDR net)
  /\ Get d' "nameservers_v4" = stringList (Network.NameserversV4 net)
  /\ expandStringList (Get d' "nameservers_v4") = Network.NameserversV4 net
  /\ Get d' "region" = VString (clientRegion s).
Proof.
  intros Hc Hf Hl Hid Hpost out d'. subst d' out.
  unfold resourceNetworkCreate. run. rewrite Hc. run.
  unfold createDefaultFirewall. run.
  unfold defaultFirewall in Hf. rewrite Hf. run.
  match goal with |- context [resourceNetworkRead ?st] => set (s1 := st) end.
  assert (Hr : clientRegion s1 = clientRegion s) by apply clientRegion_ready.
  assert (Hl1 : ListNetworks (clientRegion s1) (backend s1)
                = ((Some (pre ++ net :: post), None), b3)).
  { rewrite Hr. exact Hl. }
  rewrite (resourceNetworkRead_listed s1 _ _ Hl1). cbn [fst snd rd].
  cbn [elems]. subst s1. cbn [rd].
  change (Id (SetId (NetworkResult.ID network) (rd s)))
    with (NetworkResult.ID network).
  rewrite (findCurrentNetwork_last _ pre post net Hid Hpost).
  rewrite Hr.
  assert (Hns : Get (written net (clientRegion s) (SetId (NetworkResult.ID network) (rd s)))
                    "nameservers_v4" = stringList (Network.NameserversV4 net))
    by get_written.
  repeat split; try get_written.
  rewrite Hns. apply expandStringList_stringList.
Qed.

(** ** Update *)

(** C10: the Update handler sends a rename request only when [label] has
    changed and an update request only when [nameservers_v4] has changed;
    it sends no other mutating request, so when neither attribute has
    changed it sends none at all. *)
Theorem update_requests (s : St B) :
  exists evs,
    trace (snd (resourceNetworkUpdate s)) = trace s ++ evs
    /\ (HasChange (rd s) "label" = false ->
        HasChange (rd s) "nameservers_v4" = false ->
        Forall (fun c => mutating c = false) (callsOf evs))
    /\ (existsb is_rename (callsOf evs) = true -> HasChange (rd s) "label" = true)
    /\ (existsb is_update (callsOf evs) = true ->
        HasChange (rd s) "nameservers_v4" = true)
    /\ Forall (fun c => mutating c = true -> is_rename c = true \/ is_update c = true)
              (callsOf evs).
Proof.
  unfold resourceNetworkUpdate. run.
  destruct (HasChange (rd s) "label") eqn:Hlab;
    destruct (HasChange (rd s) "nameservers_v4") eqn:Hns; run.
  all: repeat match goal with
       | |- context [RenameNetwork ?l ?i ?r ?b] =>
           destruct (RenameNetwork l i r b) as [[? | ?] ?]; run
       | |- context [UpdateNetwork ?i ?c ?b] =>
           destruct (UpdateNetwork i c b) as [[? | ?] ?]; run
       end.
  all: cbn [HasError diag_Errorf]; run.
  all: try (unfold resourceNetworkRead; run;
            match goal with |- context [ListNetworks ?r ?b] =>
              destruct (ListNetworks r b) as [[[?|] [?|]] ?] end; run).
  all: rewrite <- ?app_assoc; cbn [app].
  all: eexists; (split; [reflexivity |]); cbn;
       repeat split; intros; try discriminate; try reflexivity;
       repeat (match goal with |- Forall _ _ => constructor end);
       cbn; intros; try discriminate; try reflexivity; auto.
Qed.

(** ** Delete: one refresh *)

Lemma deleteRefresh_answer (id : string) (s : St B) :
  fst (deleteRefresh id s) = refreshOf (pollAnswer id s).
Proof.
  unfold deleteRefresh, pollAnswer. run.
  destruct (DeleteNetwork id (Region s) (backend s)) as [[resp | e] b1]; run;
    [| reflexivity].
  destruct (bool_decide _); run; [| reflexivity].
  destruct (GetNetwork id (Region s) b1) as [[net | e] b2]; run; [reflexivity |].
  destruct (is_DatabaseNetworkNotFoundError e); reflexivity.
Qed.

Lemma deleteRefresh_trace (id : string) (s : St B) :
  trace (snd (deleteRefresh id s)) =
  trace s ++ map EvCall (pollRequests id (Region s) (pollAnswer id s)).
Proof.
  unfold deleteRefresh, pollAnswer. run.
  destruct (DeleteNetwork id (Region s) (backend s)) as [[resp | e] b1]; run;
    [| reflexivity].
  destruct (bool_decide _); run; [| reflexivity].
  destruct (GetNetwork id (Region s) b1) as [[net | e] b2]; run;
    [now rewrite <- app_assoc |].
  destruct (is_DatabaseNetworkNotFoundError e); cbn; now rewrite <- app_assoc.
Qed.

(** A refresh changes neither the resource data nor the client's region,
    and the clock does not run backwards. *)
Lemma deleteRefresh_frame (id : string) (s : St B) :
  rd (snd (deleteRefresh id s)) = rd s
  /\ Region (snd (deleteRefresh id s)) = Region s
  /\ now s <= now (snd (deleteRefresh id s)).
Proof.
  unfold deleteRefresh. run.
  destruct (DeleteNetwork id (Region s) (backend s)) as [[resp | e] b1]; run;
    [| repeat split; lia].
  destruct (bool_decide _); run; [| repeat split; lia].
  destruct (GetNetwork id (Region s) b1) as [[net | e] b2]; run;
    [repeat split; lia |].
  destruct (is_DatabaseNetworkNotFoundError e); cbn; repeat split; lia.
Qed.

Lemma nextWait_delete_bounds (id : string) (wait : Z) :
  3000 <= nextWait (deleteStateConf id) wait <= 10000.
Proof.
  unfold nextWait. cbn [MinTimeout deleteStateConf].
  destruct (wait * 2 <? 3 * 1000) eqn:H1; [lia |].
  destruct (10000 <? wait * 2) eqn:H2; [lia |].
  apply Z.ltb_ge in H1. apply Z.ltb_ge in H2. lia.
Qed.

(** The verdict of the poller on each answer of the backend. *)
Lemma verdict_delete (id : string) (tick : nat) (a : PollAnswer) :
  verdict (deleteStateConf id) tick (refreshOf a) =
  match a with
  | DeleteFailed e => Abort (Some (RInt 0)) e
  | NotDeleted _ | StillFound _ => Retry 0
  | Gone resp => Done (Some (RResp resp))
  | CheckFailed e => Abort None e
  end.
Proof. destruct a; reflexivity. Qed.

(** One round of the delete poller, by what the backend answers. *)
Lemma round_delete (id : string) (dl wait : Z) (tick : nat) (last : string)
    (s : St B) :
  let conf := deleteStateConf id in
  let s1 := snd (sleep wait s) in
  let s2 := snd (deleteRefresh id s1) in
  let timeout := Finished (None, Some (TimeoutError last (Timeout conf))) in
  round conf dl wait tick last s =
  if dl <=? now s + wait then timeout (snd (sleep (dl - now s) s))
  else if dl <=? now s2 then timeout s2
  else match pollAnswer id s1 with
       | DeleteFailed e => Finished (Some (RInt 0), Some e) s2
       | NotDeleted _ =>
           Continue (nextWait conf (firstWait wait)) 0 "exists" s2
       | StillFound _ =>
           Continue (nextWait conf (firstWait wait)) 0 "deleting" s2
       | Gone resp => Finished (Some (RResp resp), None) s2
       | CheckFailed e => Finished (None, Some e) s2
       end.
Proof.
  cbv zeta. unfold round.
  destruct (dl <=? now s + wait); [reflexivity |].
  cbn [Refresh deleteStateConf].
  pose proof (deleteRefresh_answer id (snd (sleep wait s))) as Ha.
  destruct (deleteRefresh id (snd (sleep wait s))) as [r s2]. cbn [fst snd] in *.
  destruct (dl <=? now s2); [reflexivity |].
  subst r. fold (deleteStateConf id). rewrite verdict_delete.
  destruct (pollAnswer id _); reflexivity.
Qed.

Lemma refreshLoop_S (fuel : nat) (conf : StateChangeConf) (dl wait : Z)
    (tick : nat) (last : string) (s : St B) :
  refreshLoop (S fuel) conf dl wait tick last s =
  match round conf dl wait tick last s with
  | Finished r s' => Some (r, s')
  | Continue wait' tick' state' s' => refreshLoop fuel conf dl wait' tick' state' s'
  end.
Proof. reflexivity. Qed.

(** C1: one refresh of the delete poller after a delete request that
    reported success.  When the existence check answers with the
    distinguished not-found error, the refresh yields the state [deleted],
    which is the target, and the poller ends without an error.  Any other
    error of the existence check ends the poller with that error.  When the
    network is still found, the refresh yields [deleting], which is pending
    and not the target, and the poller goes into another round that starts
    with a pause of between 3 and 10 seconds.  The round is one that the
    timeout does not cut short. *)
Theorem refresh_after_successful_delete (id : string) (dl wait : Z)
    (tick : nat) (last : string) (fuel : nat) (s : St B)
    (resp : SimpleResponse.t) (b1 : B) :
  let conf := deleteStateConf id in
  let s1 := snd (sleep wait s) in
  let s2 := snd (deleteRefresh id s1) in
  DeleteNetwork id (Region s) (backend s) = (inl resp, b1) ->
  SimpleResponse.Result resp = "success" ->
  now s + wait < dl ->
  now s2 < dl ->
  (fst (GetNetwork id (Region s) b1) = inr DatabaseNetworkNotFoundError ->
     fst (deleteRefresh id s1) = mkRefresh (Some (RResp resp)) "deleted" None
     /\ "deleted" ∈ Target conf
     /\ refreshLoop (S fuel) conf dl wait tick last s
        = Some ((Some (RResp resp), None), s2))
  /\ (forall e,
        fst (GetNetwork id (Region s) b1) = inr e ->
        e <> DatabaseNetworkNotFoundError ->
        fst (deleteRefresh id s1) = mkRefresh None "" (Some e)
        /\ refreshLoop (S fuel) conf dl wait tick last s
           = Some ((None, Some e), s2))
  /\ (forall net,
        fst (GetNetwork id (Region s) b1) = inl net ->
        let backoff := nextWait conf (firstWait wait) in
        fst (deleteRefresh id s1) = mkRefresh (Some (RResp resp)) "deleting" None
        /\ "deleting" ∈ Pending conf
        /\ ("deleting" ∉ Target conf)
        /\ 3000 <= backoff <= 10000
        /\ round conf dl wait tick last s = Continue backoff 0 "deleting" s2
        /\ refreshLoop (S fuel) conf dl wait tick last s
           = refreshLoop fuel conf dl backoff 0 "deleting" s2).
Proof.
  intros conf s1 s2 Hd Hok Hstart Hend.
  assert (Hround := round_delete id dl wait tick last s). cbv zeta in Hround.
  fold conf s1 s2 in Hround.
  rewrite (proj2 (Z.leb_gt _ _) Hstart), (proj2 (Z.leb_gt _ _) Hend) in Hround.
  assert (Ha : pollAnswer id s1 =
               match fst (GetNetwork id (Region s) b1) with
               | inl _ => StillFound resp
               | inr e => if is_DatabaseNetworkNotFoundError e then Gone resp
                          else CheckFailed e
               end).
  { unfold pollAnswer, s1. cbn [sleep snd Region backend]. rewrite Hd.
    rewrite bool_decide_eq_true_2 by exact Hok.
    destruct (GetNetwork id (Region s) b1) as [[net | e] b2]; reflexivity. }
  rewrite refreshLoop_S, Hround, deleteRefresh_answer, Ha.
  split; [| split].
  - intros Hg. rewrite Hg. cbn. repeat split. apply list_elem_of_here.
  - intros e Hg Hne. rewrite Hg.
    destruct e; try contradiction; cbn; split; reflexivity.
  - intros net Hg backoff. rewrite Hg. cbn [refreshOf].
    repeat split; try reflexivity.
    + cbn. apply list_elem_of_here.
    + cbn. intros Hin. apply list_elem_of_In in Hin. cbn in Hin.
      destruct Hin as [Hin | []]. discriminate.
    + apply nextWait_delete_bounds.
    + apply nextWait_delete_bounds.
Qed.

(** ** Delete: the rounds of the poller *)

(** More fuel does not change a result. *)
Lemma refreshLoop_more_fuel (conf : StateChangeConf) (dl : Z) (fuel extra : nat) :
  forall (wait : Z) (tick : nat) (last : string) (s : St B) (out : WaitResult * St B),
  refreshLoop fuel conf dl wait tick last s = Some out ->
  refreshLoop (fuel + extra) conf dl wait tick last s = Some out.
Proof.
  induction fuel as [| fuel IH]; intros wait tick last s out H.
  - discriminate.
  - cbn [Nat.add]. rewrite refreshLoop_S in *.
    destruct (round conf dl wait tick last s); [exact H | now apply IH].
Qed.

Lemma refreshLoop_fuel_irrelevant (conf : StateChangeConf) (dl : Z)
    (f1 f2 : nat) (wait : Z) (tick : nat) (last : string) (s : St B)
    (o1 o2 : WaitResult * St B) :
  refreshLoop f1 conf dl wait tick last s = Some o1 ->
  refreshLoop f2 conf dl wait tick last s = Some o2 ->
  o1 = o2.
Proof.
  intros H1 H2.
  apply (refreshLoop_more_fuel _ _ _ f2) in H1.
  apply (refreshLoop_more_fuel _ _ _ f1) in H2.
  rewrite (Nat.add_comm f2 f1) in H2. congruence.
Qed.

(** With a pause of at least 200 milliseconds before each round, the rounds
    reach the deadline before the fuel runs out. *)
Lemma refreshLoop_delete_total (id : string) (dl : Z) (fuel : nat) :
  forall (wait : Z) (tick : nat) (last : string) (s : St B),
  200 <= wait ->
  dl - now s < 200 * Z.of_nat (S fuel) ->
  exists out, refreshLoop (S fuel) (deleteStateConf id) dl wait tick last s = Some out.
Proof.
  induction fuel as [| fuel IH]; intros wait tick last s Hw Hdl;
    rewrite refreshLoop_S, round_delete; cbv zeta.
  - rewrite (proj2 (Z.leb_le _ _)) by lia. eauto.
  - destruct (dl <=? now s + wait) eqn:H1; [eauto |].
    destruct (dl <=? now (snd (deleteRefresh id (snd (sleep wait s))))) eqn:H2;
      [eauto |].
    apply Z.leb_gt in H1.
    pose proof (deleteRefresh_frame id (snd (sleep wait s))) as (_ & _ & Hmono).
    cbn [sleep snd now] in Hmono.
    pose proof (nextWait_delete_bounds id (firstWait wait)) as Hnw.
    destruct (pollAnswer id (snd (sleep wait s))); eauto;
      apply IH; cbn [sleep snd now]; lia.
Qed.

Lemma roundsFrom_shift (id : string) (k : nat) (ws : Z * St B) :
  roundsFrom id (S k) ws = roundsFrom id k (afterRound id ws).
Proof. unfold roundsFrom. apply Nat.iter_succ_r. Qed.

Lemma answerFrom_shift (id : string) (k : nat) (ws : Z * St B) :
  answerFrom id ws (S k) = answerFrom id (afterRound id ws) k.
Proof. unfold answerFrom. now rewrite roundsFrom_shift. Qed.

Lemma finishFrom_shift (id : string) (k : nat) (ws : Z * St B) :
  finishFrom id ws (S k) = finishFrom id (afterRound id ws) k.
Proof. unfold finishFrom. now rewrite (roundsFrom_shift id (S k)). Qed.

Lemma afterRound_time (id : string) (ws : Z * St B) :
  now (snd ws) + fst ws <= now (snd (afterRound id ws))
  /\ 0 <= fst (afterRound id ws).
Proof.
  unfold afterRound. cbn [fst snd]. split.
  - pose proof (deleteRefresh_frame id (snd (sleep (fst ws) (snd ws)))) as (_ & _ & H).
    exact H.
  - pose proof (nextWait_delete_bounds id (firstWait (fst ws))). lia.
Qed.

Lemma afterRound_frame (id : string) (ws : Z * St B) :
  rd (snd (afterRound id ws)) = rd (snd ws)
  /\ Region (snd (afterRound id ws)) = Region (snd ws).
Proof.
  unfold afterRound. cbn [fst snd].
  pose proof (deleteRefresh_frame id (snd (sleep (fst ws) (snd ws)))) as (H1 & H2 & _).
  split; [exact H1 | exact H2].
Qed.

(** Polls end in the order in which they are made. *)
Lemma finishFrom_mono (id : string) (j : nat) :
  forall (ws : Z * St B) (k : nat),
  0 <= fst ws -> (k <= j)%nat -> finishFrom id ws k <= finishFrom id ws j.
Proof.
  induction j as [| j IH]; intros ws k Hw Hk.
  - replace k with 0%nat by lia. lia.
  - destruct (afterRound_time id ws) as [Ht Hw'].
    destruct k as [| k].
    + rewrite finishFrom_shift.
      transitivity (finishFrom id (afterRound id ws) 0).
      * unfold finishFrom, roundsFrom. cbn [Nat.iter nat_rect].
        destruct (afterRound_time id (afterRound id ws)) as [Ht' _]. lia.
      * apply IH; [exact Hw' | lia].
    + rewrite !finishFrom_shift. apply IH; [exact Hw' | lia].
Qed.

(** The requests of the rounds are the requests of their polls. *)
Lemma roundsFrom_trace (id : string) (n : nat) :
  forall ws : Z * St B,
  exists evs,
    trace (snd (roundsFrom id n ws)) = trace (snd ws) ++ evs
    /\ callsOf evs =
       flat_map (fun k => pollRequests id (Region (snd ws)) (answerFrom id ws k))
                (seq 0 n).
Proof.
  induction n as [| n IH]; intros ws.
  - exists []. split; [now rewrite app_nil_r | reflexivity].
  - rewrite roundsFrom_shift.
    destruct (IH (afterRound id ws)) as (evs & Ht & Hc).
    destruct (afterRound_frame id ws) as [_ Hreg].
    exists (EvSleep (fst ws)
            :: map EvCall (pollRequests id (Region (snd ws)) (answerFrom id ws 0))
            ++ evs).
    split.
    + rewrite Ht. unfold afterRound at 1. cbn [fst snd].
      rewrite deleteRefresh_trace. cbn [sleep snd trace Region].
      rewrite <- !app_assoc. reflexivity.
    + cbn [seq flat_map]. rewrite <- seq_shift, flat_map_concat_map, map_map.
      rewrite <- flat_map_concat_map.
      unfold callsOf at 1. cbn [flat_map]. rewrite flat_map_app.
      fold (callsOf evs). rewrite Hc, Hreg. cbn [app]. f_equal.
      * generalize (pollRequests id (Region (snd ws)) (answerFrom id ws 0)).
        intros l. induction l as [| c l IHl]; cbn; [reflexivity | now rewrite IHl].
      * apply flat_map_ext. intros k. now rewrite answerFrom_shift.
Qed.

Lemma answerFrom_0 (id : string) (ws : Z * St B) :
  answerFrom id ws 0 = pollAnswer id (snd (sleep (fst ws) (snd ws))).
Proof. reflexivity. Qed.

Lemma finishFrom_0 (id : string) (ws : Z * St B) :
  finishFrom id ws 0 = now (snd (deleteRefresh id (snd (sleep (fst ws) (snd ws))))).
Proof. reflexivity. Qed.

(** A round that the timeout does not cut short, by the answer of its poll. *)
Lemma round_in_window (id : string) (dl : Z) (tick : nat) (last : string)
    (ws : Z * St B) :
  finishFrom id ws 0 < dl ->
  round (deleteStateConf id) dl (fst ws) tick last (snd ws) =
  match answerFrom id ws 0 with
  | DeleteFailed e => Finished (Some (RInt 0), Some e) (snd (afterRound id ws))
  | NotDeleted _ =>
      Continue (fst (afterRound id ws)) 0 "exists" (snd (afterRound id ws))
  | StillFound _ =>
      Continue (fst (afterRound id ws)) 0 "deleting" (snd (afterRound id ws))
  | Gone resp => Finished (Some (RResp resp), None) (snd (afterRound id ws))
  | CheckFailed e => Finished (None, Some e) (snd (afterRound id ws))
  end.
Proof.
  intros Hfin. rewrite round_delete. cbv zeta.
  destruct (afterRound_time id ws) as [Ht _].
  rewrite finishFrom_0 in Hfin. unfold afterRound in Ht. cbn [fst snd] in Ht.
  rewrite (proj2 (Z.leb_gt _ _)) by lia.
  rewrite (proj2 (Z.leb_gt _ _)) by lia.
  rewrite answerFrom_0. reflexivity.
Qed.

(** The poller ends with success only after a poll, inside the window, that
    found the network gone, every poll before it having left the network
    pending. *)
Lemma refreshLoop_success_gone (id : string) (dl : Z) (fuel : nat) :
  forall (ws : Z * St B) (tick : nat) (last : string)
         (v : option RefreshValue) (s' : St B),
  refreshLoop fuel (deleteStateConf id) dl (fst ws) tick last (snd ws)
    = Some ((v, None), s') ->
  exists k,
    (forall j, (j < k)%nat -> isPending (answerFrom id ws j) = true)
    /\ isGone (answerFrom id ws k) = true
    /\ finishFrom id ws k < dl.
Proof.
  induction fuel as [| fuel IH]; intros ws tick last v s' H; [discriminate |].
  rewrite refreshLoop_S, round_delete in H. cbv zeta in H.
  destruct (dl <=? now (snd ws) + fst ws); [discriminate |].
  destruct (dl <=? _) eqn:Hfin in H; [discriminate |].
  apply Z.leb_gt in Hfin. rewrite <- finishFrom_0 in Hfin.
  rewrite <- answerFrom_0 in H.
  destruct (answerFrom id ws 0) eqn:Ha; try discriminate.
  - apply (IH (afterRound id ws)) in H. destruct H as (k & Hp & Hk & Hf).
    exists (S k). rewrite answerFrom_shift, finishFrom_shift.
    split; [| split; [exact Hk | exact Hf]].
    intros [| j] Hj; [now rewrite Ha |].
    rewrite answerFrom_shift. apply Hp. lia.
  - apply (IH (afterRound id ws)) in H. destruct H as (k & Hp & Hk & Hf).
    exists (S k). rewrite answerFrom_shift, finishFrom_shift.
    split; [| split; [exact Hk | exact Hf]].
    intros [| j] Hj; [now rewrite Ha |].
    rewrite answerFrom_shift. apply Hp. lia.
  - exists 0%nat. rewrite Ha. split; [intros j Hj; lia |].
    split; [reflexivity | exact Hfin].
Qed.

(** While every poll that is made and answered inside the window leaves the
    network pending, the poller can only end with the timeout error.  A
    poll is made when every poll before it has left the network pending. *)
Lemma refreshLoop_pending_timeout (id : string) (dl : Z) (fuel : nat) :
  forall (ws : Z * St B) (tick : nat) (last : string) (r : WaitResult) (s' : St B),
  refreshLoop fuel (deleteStateConf id) dl (fst ws) tick last (snd ws)
    = Some (r, s') ->
  (forall k,
     (forall j, (j < k)%nat -> isPending (answerFrom id ws j) = true) ->
     finishFrom id ws k < dl ->
     isPending (answerFrom id ws k) = true) ->
  exists st, r = (None, Some (TimeoutError st 3600000)).
Proof.
  induction fuel as [| fuel IH]; intros ws tick last r s' H Hpend; [discriminate |].
  rewrite refreshLoop_S, round_delete in H. cbv zeta in H.
  destruct (dl <=? now (snd ws) + fst ws).
  { injection H as <- _. eauto. }
  destruct (dl <=? _) eqn:Hfin in H.
  { injection H as <- _. eauto. }
  apply Z.leb_gt in Hfin. rewrite <- finishFrom_0 in Hfin.
  rewrite <- answerFrom_0 in H.
  assert (Hp0 : isPending (answerFrom id ws 0) = true)
    by (apply Hpend; [intros j Hj; lia | exact Hfin]).
  assert (Hnext : forall k,
            (forall j, (j < k)%nat ->
                       isPending (answerFrom id (afterRound id ws) j) = true) ->
            finishFrom id (afterRound id ws) k < dl ->
            isPending (answerFrom id (afterRound id ws) k) = true).
  { intros k Hprev Hk. rewrite <- answerFrom_shift. apply Hpend.
    - intros [| j] Hj; [exact Hp0 |]. rewrite answerFrom_shift. apply Hprev. lia.
    - now rewrite finishFrom_shift. }
  destruct (answerFrom id ws 0) eqn:Ha; try discriminate;
    apply (IH (afterRound id ws)) in H; assumption.
Qed.

(** Where the poller stops: after some number of polls, or in the pause
    that follows them when the deadline falls into it. *)
Lemma refreshLoop_stops (id : string) (dl : Z) (fuel : nat) :
  forall (ws : Z * St B) (tick : nat) (last : string) (r : WaitResult) (s' : St B),
  refreshLoop fuel (deleteStateConf id) dl (fst ws) tick last (snd ws)
    = Some (r, s') ->
  exists n,
    s' = snd (roundsFrom id n ws)
    \/ s' = snd (sleep (dl - now (snd (roundsFrom id n ws)))
                       (snd (roundsFrom id n ws))).
Proof.
  induction fuel as [| fuel IH]; intros ws tick last r s' H; [discriminate |].
  rewrite refreshLoop_S, round_delete in H. cbv zeta in H.
  destruct (dl <=? now (snd ws) + fst ws).
  { injection H as _ <-. exists 0%nat. right. reflexivity. }
  assert (H1 : exists n, snd (afterRound id ws) = snd (roundsFrom id n ws))
    by (exists 1%nat; reflexivity).
  change (snd (deleteRefresh id (snd (sleep (fst ws) (snd ws)))))
    with (snd (afterRound id ws)) in H.
  change (nextWait (deleteStateConf id) (firstWait (fst ws)))
    with (fst (afterRound id ws)) in H.
  destruct (dl <=? _) in H.
  { injection H as _ <-. exists 1%nat. left. reflexivity. }
  destruct (pollAnswer id _) in H;
    try (injection H as _ <-; exists 1%nat; left; reflexivity);
    apply (IH (afterRound id ws)) in H; destruct H as (n & Hn);
    exists (S n); rewrite roundsFrom_shift; exact Hn.
Qed.

Lemma refreshLoop_first_final (id : string) (dl : Z) (j : nat) :
  forall (ws : Z * St B) (tick : nat) (last : string) (extra : nat),
  0 <= fst ws ->
  (forall k, (k < j)%nat -> isPending (answerFrom id ws k) = true) ->
  isPending (answerFrom id ws j) = false ->
  finishFrom id ws j < dl ->
  refreshLoop (S j + extra) (deleteStateConf id) dl (fst ws) tick last (snd ws)
  = Some (finalResult (answerFrom id ws j), snd (roundsFrom id (S j) ws)).
Proof.
  induction j as [| j IH]; intros ws tick last extra Hw Hpend Hlast Hfin.
  - cbn [Nat.add]. rewrite refreshLoop_S, round_in_window by exact Hfin.
    destruct (answerFrom id ws 0); try discriminate; reflexivity.
  - assert (Hfin0 : finishFrom id ws 0 < dl).
    { pose proof (finishFrom_mono id (S j) ws 0 Hw). lia. }
    cbn [Nat.add]. rewrite refreshLoop_S, round_in_window by exact Hfin0.
    assert (Hp0 := Hpend 0%nat ltac:(lia)).
    destruct (afterRound_time id ws) as [_ Hw'].
    rewrite (roundsFrom_shift id (S j)), (answerFrom_shift id j).
    destruct (answerFrom id ws 0); try discriminate;
      (apply IH;
       [ exact Hw'
       | intros k Hk; rewrite <- answerFrom_shift; apply Hpend; lia
       | now rewrite <- answerFrom_shift
       | now rewrite <- finishFrom_shift ]).
Qed.

(** ** Delete: the handler *)

Lemma resourceNetworkDelete_eq (s : St B) :
  resourceNetworkDelete s =
  match refreshLoop (pollBudget (deleteStateConf (Id (rd s))))
                    (deleteStateConf (Id (rd s))) (now s + 3600000) 0 0 ""
                    (polling s) with
  | None => None
  | Some ((_, Some e), s') => Some (deleteDiagnostics (Id (rd s)) e, s')
  | Some ((_, None), s') => Some ([], s')
  end.
Proof.
  unfold resourceNetworkDelete. rewrite overwriteRegion_eq. cbn [snd rd].
  unfold WaitForStateContext. cbn [Timeout Delay deleteStateConf now].
  change (60 * 60 * 1000) with 3600000. change (5 * 1000) with 5000.
  rewrite (proj2 (Z.leb_gt _ _)) by lia. reflexivity.
Qed.

(** The poller of the Delete handler never runs out of rounds. *)
Lemma refreshLoop_budget (s : St B) :
  exists out,
    refreshLoop (pollBudget (deleteStateConf (Id (rd s))))
                (deleteStateConf (Id (rd s))) (now s + 3600000) 0 0 ""
                (polling s) = Some out.
Proof.
  unfold pollBudget. cbn [Timeout deleteStateConf].
  change (60 * 60 * 1000 / 200) with 18000.
  set (fuel := Z.to_nat 18000).
  assert (Hfuel : Z.of_nat (S fuel) = 18001) by (subst fuel; lia).
  rewrite refreshLoop_S, round_delete. cbv zeta.
  destruct (_ <=? _); [eauto |].
  destruct (_ <=? _); [eauto |].
  pose proof (deleteRefresh_frame (Id (rd s)) (snd (sleep 0 (polling s))))
    as (_ & _ & Hmono).
  cbn [sleep snd now polling ready] in Hmono.
  pose proof (nextWait_delete_bounds (Id (rd s)) (firstWait 0)) as Hnw.
  destruct (pollAnswer _ _); eauto;
    apply refreshLoop_delete_total; cbn [sleep snd now polling ready]; lia.
Qed.

Lemma resourceNetworkDelete_total (s : St B) :
  exists ds s', resourceNetworkDelete s = Some (ds, s').
Proof.
  rewrite resourceNetworkDelete_eq.
  destruct (refreshLoop_budget s) as ([[v [e |]] s'] & ->); eauto.
Qed.

(** The result of the poller of the Delete handler is the result of its
    rounds at any fuel that yields one. *)
Lemma refreshLoop_at_budget (s : St B) (fuel : nat) (out : WaitResult * St B) :
  refreshLoop fuel (deleteStateConf (Id (rd s))) (now s + 3600000) 0 0 ""
              (polling s) = Some out ->
  refreshLoop (pollBudget (deleteStateConf (Id (rd s))))
              (deleteStateConf (Id (rd s))) (now s + 3600000) 0 0 ""
              (polling s) = Some out.
Proof.
  intros H. destruct (refreshLoop_budget s) as (out' & H').
  rewrite H'. f_equal. symmetry. eapply refreshLoop_fuel_irrelevant; eassumption.
Qed.

(** The handler ends on the first answer that is not pending, when its poll
    is over before the deadline: with no diagnostic when the network is
    gone, with the error of the failed request otherwise. *)
Lemma resourceNetworkDelete_ends (s : St B) (j : nat) :
  let id := Id (rd s) in
  let ws := (0, polling s) in
  (forall k, (k < j)%nat -> isPending (answerFrom id ws k) = true) ->
  isPending (answerFrom id ws j) = false ->
  finishFrom id ws j < now s + 3600000 ->
  resourceNetworkDelete s =
  Some (match snd (finalResult (answerFrom id ws j)) with
        | Some e => deleteDiagnostics id e
        | None => []
        end, snd (roundsFrom id (S j) ws)).
Proof.
  intros id ws Hpend Hlast Hfin. subst id.
  assert (Hj := refreshLoop_first_final (Id (rd s)) (now s + 3600000) j ws
                  0 "" 0 ltac:(cbn; lia) Hpend Hlast Hfin).
  cbn [fst snd] in Hj. subst ws. apply refreshLoop_at_budget in Hj.
  rewrite resourceNetworkDelete_eq, Hj.
  destruct (finalResult _) as [v [e |]]; reflexivity.
Qed.

Lemma flat_map_const {A C} (f : A -> list C) (c : list C) (l : list A) :
  (forall a, In a l -> f a = c) ->
  flat_map f l = concat (repeat c (length l)).
Proof.
  induction l as [| a l IH]; intros H; cbn; [reflexivity |].
  rewrite (H a) by (left; reflexivity). f_equal.
  apply IH. intros a' Ha'. apply H. now right.
Qed.

(** C4: if the delete request succeeds on every poll, the existence check
    finds the network on each of the first N-1 polls and answers with the
    not-found error on poll N, and poll N is over before the timeout of one
    hour has passed, then the Delete handler returns without a diagnostic;
    it returns in the state reached after exactly N polls, and the requests
    it has sent are exactly N pairs of a delete request and an existence
    check. *)
Theorem delete_succeeds_on_Nth_poll (s : St B) (N : nat) :
  let id := Id (rd s) in
  let ws := (0, polling s) in
  (1 <= N)%nat ->
  (forall k, (k < N - 1)%nat -> exists resp, answerFrom id ws k = StillFound resp) ->
  (exists resp, answerFrom id ws (N - 1) = Gone resp) ->
  finishFrom id ws (N - 1) < now s + 3600000 ->
  exists s' evs,
    resourceNetworkDelete s = Some ([], s')
    /\ s' = snd (roundsFrom id N ws)
    /\ trace s' = trace s ++ evs
    /\ callsOf evs =
       concat (repeat [CDeleteNetwork id (clientRegion s);
                       CGetNetwork id (clientRegion s)] N).
Proof.
  intros id ws HN Hfound [resp Hgone] Hfin.
  destruct N as [| j]; [lia |]. replace (S j - 1)%nat with j in * by lia.
  assert (Hloop := refreshLoop_first_final id (now s + 3600000) j ws 0 "" 0
                     ltac:(cbn; lia)
                     ltac:(intros k Hk; destruct (Hfound k Hk) as [r ->]; reflexivity)
                     ltac:(rewrite Hgone; reflexivity) Hfin).
  rewrite Hgone in Hloop. cbn [fst snd finalResult] in Hloop. subst ws id.
  apply refreshLoop_at_budget in Hloop.
  destruct (roundsFrom_trace (Id (rd s)) (S j) (0, polling s)) as (evs & Ht & Hc).
  cbn [fst snd] in Ht, Hc.
  exists (snd (roundsFrom (Id (rd s)) (S j) (0, polling s))), (EvSleep 5000 :: evs).
  split; [| split; [reflexivity | split]].
  - rewrite resourceNetworkDelete_eq, Hloop. reflexivity.
  - rewrite Ht. cbn [polling sleep snd trace ready]. now rewrite <- app_assoc.
  - change (callsOf (EvSleep 5000 :: evs)) with (callsOf evs). rewrite Hc.
    rewrite <- (length_seq (S j) 0) at 2.
    apply flat_map_const. intros k Hk. apply in_seq in Hk.
    destruct (Nat.eq_dec k j) as [-> | Hne].
    + rewrite Hgone. reflexivity.
    + destruct (Hfound k ltac:(lia)) as [r ->]. reflexivity.
Qed.

(** C5 (as amended): if no existence check that the poller makes and that
    is answered before the timeout finds the network gone, the Delete
    handler does not report success: it returns a diagnostic carrying an
    error.  Poll [k] is made when every poll before it has left the network
    pending, and it is answered before the timeout when [finishFrom k] lies
    before the deadline; what the backend would answer to polls that are
    never made does not matter.  The error is the timeout error when every
    poll made and answered in time leaves the network pending (the delete
    request did not report success, or the network is still found); it is
    the error of the backend when a delete request or an existence check
    fails first. *)
Theorem delete_without_not_found_fails (s : St B) :
  let id := Id (rd s) in
  let ws := (0, polling s) in
  let dl := now s + 3600000 in
  (forall k,
     (forall j, (j < k)%nat -> isPending (answerFrom id ws j) = true) ->
     finishFrom id ws k < dl ->
     isGone (answerFrom id ws k) = false) ->
  exists e s',
    resourceNetworkDelete s = Some (deleteDiagnostics id e, s')
    /\ HasError (deleteDiagnostics id e) = true
    /\ ((forall k,
           (forall j, (j < k)%nat -> isPending (answerFrom id ws j) = true) ->
           finishFrom id ws k < dl ->
           isPending (answerFrom id ws k) = true) ->
        exists st, e = TimeoutError st 3600000)
    /\ (forall j e',
          (forall k, (k < j)%nat -> isPending (answerFrom id ws k) = true) ->
          finishFrom id ws j < dl ->
          answerFrom id ws j = DeleteFailed e'
          \/ answerFrom id ws j = CheckFailed e' ->
          e = e').
Proof.
  intros id ws dl Hnever. subst id dl.
  destruct (refreshLoop_budget s) as ([[v oe] s'] & Hloop).
  destruct oe as [e |].
  - exists e, s'. split; [| split; [reflexivity | split]].
    + rewrite resourceNetworkDelete_eq, Hloop. reflexivity.
    + intros Hpend.
      destruct (refreshLoop_pending_timeout _ _ _ ws _ _ _ _ Hloop Hpend) as [st Hst].
      exists st. congruence.
    + intros j e' Hpend Hfin Hans.
      assert (Hlast : isPending (answerFrom (Id (rd s)) ws j) = false)
        by (destruct Hans as [-> | ->]; reflexivity).
      assert (Hj := refreshLoop_first_final (Id (rd s)) (now s + 3600000) j ws
                      0 "" 0 ltac:(cbn; lia) Hpend Hlast Hfin).
      cbn [fst snd] in Hj. subst ws. apply refreshLoop_at_budget in Hj.
      rewrite Hloop in Hj. destruct Hans as [Ha | Ha]; rewrite Ha in Hj;
        cbn in Hj; congruence.
  - exfalso.
    destruct (refreshLoop_success_gone _ _ _ ws _ _ _ _ Hloop)
      as (k & Hp & Hk & Hf).
    rewrite (Hnever k Hp Hf) in Hk. discriminate.
Qed.




(** ** More on the helpers *)

(** X2: [expandStringList] keeps the string items of a list, in order, and
    drops every other item; on a list made of strings it gives the strings
    back, and on a value that is not a list it gives nothing. *)
Theorem expandStringList_strings_only :
  (forall xs, expandStringList (stringList xs) = xs)
  /\ (forall l1 l2,
        expandStringList (VList (l1 ++ l2))
        = expandStringList (VList l1) ++ expandStringList (VList l2))
  /\ (forall l str, In str (expandStringList (VList l)) <-> In (IString str) l)
  /\ (forall l, (length (expandStringList (VList l)) <= length l)%nat)
  /\ (forall v, (forall l, v <> VList l) -> expandStringList v = []).
Proof.
  split; [apply expandStringList_stringList |].
  split; [intros l1 l2; cbn; apply flat_map_app |].
  split; [| split].
  - intros l str. cbn. rewrite in_flat_map. split.
    + intros (item & Hin & Hs). destruct item; cbn in Hs; try contradiction.
      destruct Hs as [-> | []]. exact Hin.
    + intros Hin. exists (IString str). split; [exact Hin | now left].
  - intros l. cbn. induction l as [| item l IH]; cbn; [lia |].
    rewrite length_app. destruct item; cbn; lia.
  - intros v Hv. destruct v; try reflexivity. now destruct (Hv l).
Qed.

(** X3: the loop of the Read handler ends on the last listed network that
    has the identifier looked for; when no listed network has it, it ends
    on the zero network. *)
Theorem findCurrentNetwork_last_or_zero (id : string) (resp : list Network.t) :
  let cur := findCurrentNetwork id resp in
  (exists pre post,
      resp = pre ++ cur :: post
      /\ Network.ID cur = id
      /\ Forall (fun n => Network.ID n <> id) post)
  \/ (cur = Network.zero /\ Forall (fun n => Network.ID n <> id) resp).
Proof.
  cbv zeta. induction resp as [| net resp IH] using rev_ind.
  - right. split; [reflexivity | constructor].
  - rewrite findCurrentNetwork_app. cbn [fold_left].
    destruct (bool_decide (Network.ID net = id)) eqn:Hnet.
    + apply bool_decide_eq_true in Hnet. left. exists resp, [].
      repeat split; [exact Hnet | constructor].
    + apply bool_decide_eq_false in Hnet.
      destruct IH as [(pre & post & Hresp & Hid & Hpost) | [Hz Hall]].
      * left. exists pre, (post ++ [net]). split; [| split].
        -- rewrite Hresp at 1. now rewrite <- app_assoc.
        -- exact Hid.
        -- apply Forall_app. split; [exact Hpost | now constructor].
      * right. split; [exact Hz |].
        apply Forall_app. split; [exact Hall | now constructor].
Qed.

(** ** More on Read *)

Lemma resourceNetworkRead_sends (s : St B) :
  trace (snd (resourceNetworkRead s))
  = trace s ++ [EvCall (CListNetworks (clientRegion s))]
  /\ Region (snd (resourceNetworkRead s)) = clientRegion s.
Proof.
  unfold resourceNetworkRead. run.
  destruct (ListNetworks (clientRegion s) (backend s)) as [[resp [e |]] b1]; run.
  - destruct resp; run; repeat split.
  - repeat split.
Qed.

(** X4: whatever the backend answers, the Read handler sends one request, a
    listing of the networks in the client's region, and leaves the client
    set to that region. *)
Theorem resourceNetworkRead_one_request (s : St B) :
  trace (snd (resourceNetworkRead s))
  = trace s ++ [EvCall (CListNetworks (clientRegion s))]
  /\ Region (snd (resourceNetworkRead s)) = clientRegion s
  /\ backend (snd (resourceNetworkRead s))
     = snd (ListNetworks (clientRegion s) (backend s)).
Proof.
  unfold resourceNetworkRead. run.
  destruct (ListNetworks (clientRegion s) (backend s)) as [[resp [e |]] b1]; run.
  - destruct resp; run; repeat split.
  - repeat split.
Qed.

(** X5: when the list request returns an error together with a slice that
    is not nil, the Read handler returns the diagnostic that carries the
    error and leaves the resource data, identifier included, as they were. *)
Theorem resourceNetworkRead_list_error (s : St B) (nets : list Network.t)
    (e : error) (b1 : B) :
  ListNetworks (clientRegion s) (backend s) = ((Some nets, Some e), b1) ->
  fst (resourceNetworkRead s)
  = diag_Errorf "[ERR] failed to list the network: %s" [AErr e]
  /\ rd (snd (resourceNetworkRead s)) = rd s.
Proof.
  intros Hl. unfold resourceNetworkRead. run. rewrite Hl. run. split; reflexivity.
Qed.

(** X6: the Read handler returns an error in one case only, a list request
    that comes back with an error and a slice that is not nil; and the
    identifier it leaves is empty when the list request comes back with an
    error and a nil slice, and the identifier it found in every other
    case. *)
Theorem resourceNetworkRead_outcomes (s : St B) :
  let listed := fst (ListNetworks (clientRegion s) (backend s)) in
  let out := resourceNetworkRead s in
  (HasError (fst out) = true <-> exists nets e, listed = (Some nets, Some e))
  /\ Id (rd (snd out))
     = match listed with
       | (None, Some _) => ""
       | _ => Id (rd s)
       end.
Proof.
  cbv zeta. unfold resourceNetworkRead. run.
  destruct (ListNetworks (clientRegion s) (backend s)) as [[resp [e |]] b1]; run.
  - destruct resp as [nets |]; run; (split; [split |]).
    + intros _. eauto.
    + reflexivity.
    + reflexivity.
    + discriminate.
    + intros (nets & e' & H). discriminate H.
    + reflexivity.
  - split; [split |].
    + discriminate.
    + intros (nets & e' & H). discriminate H.
    + destruct resp; reflexivity.
Qed.

Lemma resourceNetworkRead_cases (s : St B) :
  rd (snd (resourceNetworkRead s)) = rd s
  \/ rd (snd (resourceNetworkRead s)) = SetId "" (rd s)
  \/ exists cur, rd (snd (resourceNetworkRead s)) = written cur (clientRegion s) (rd s).
Proof.
  unfold resourceNetworkRead. run.
  destruct (ListNetworks (clientRegion s) (backend s)) as [[resp [e |]] b1]; run.
  - destruct resp; run; [left | right; left]; reflexivity.
  - right. right. eexists. reflexivity.
Qed.

(** X7: the Read handler touches nothing but the identifier and the six
    attributes it sets: the prior state and the plan stay as they were, so
    that [HasChange] answers as before for every attribute, and every other
    attribute reads as before. *)
Theorem resourceNetworkRead_frame (s : St B) :
  rdState (rd (snd (resourceNetworkRead s))) = rdState (rd s)
  /\ rdPlan (rd (snd (resourceNetworkRead s))) = rdPlan (rd s)
  /\ (forall key,
        HasChange (rd (snd (resourceNetworkRead s))) key = HasChange (rd s) key)
  /\ (forall key,
        ~ In key readAttributes ->
        Get (rd (snd (resourceNetworkRead s))) key = Get (rd s) key).
Proof.
  destruct (resourceNetworkRead_cases s) as [-> | [-> | [cur ->]]];
    repeat split; intros key Hk.
  unfold Get, written, Set_. cbn [rdSet rdPlan].
  cbn in Hk.
  rewrite !lookup_insert_ne by (intros <-; apply Hk; tauto).
  reflexivity.
Qed.

(** X8: what the Read handler writes fits the schema: every value it adds to
    the resource data belongs to an attribute that the schema declares, and
    has the type declared for it. *)
Theorem resourceNetworkRead_well_typed (s : St B) (key : string) (v : Value) :
  rdSet (rd (snd (resourceNetworkRead s))) !! key = Some v ->
  rdSet (rd s) !! key = Some v
  \/ exists sch,
       ResourceNetworkSchema !! key = Some sch /\ typeOf v = Schema.Type_ sch.
Proof.
  destruct (resourceNetworkRead_cases s) as [-> | [-> | [cur ->]]];
    [now left | now left |].
  unfold written, Set_. cbn [rdSet]. intros H.
  repeat (apply lookup_insert_Some in H;
          destruct H as [[<- <-] | [_ H]];
          [right; eexists; split; reflexivity |]).
  now left.
Qed.

Lemma ResourceData_eq (d d' : ResourceData) :
  rdId d = rdId d' -> rdState d = rdState d' -> rdPlan d = rdPlan d' ->
  rdSet d = rdSet d' -> d = d'.
Proof. destruct d, d'. cbn. congruence. Qed.

Lemma written_fields (cur : Network.t) (region : string) (d : ResourceData) :
  rdId (written cur region d) = rdId d
  /\ rdState (written cur region d) = rdState d
  /\ rdPlan (written cur region d) = rdPlan d
  /\ rdSet (written cur region d)
     = <["nameservers_v4" := stringList (Network.NameserversV4 cur)]>
         (<["cidr_v4" := VString (Network.CIDR cur)]>
           (<["default" := VBool (Network.Default cur)]>
             (<["label" := VString (Network.Label cur)]>
               (<["region" := VString region]>
                 (<["name" := VString (Network.Name cur)]> (rdSet d)))))).
Proof. repeat split. Qed.

Lemma written_twice (cur : Network.t) (region : string) (d : ResourceData) :
  written cur region (written cur region d) = written cur region d.
Proof.
  destruct (written_fields cur region (written cur region d)) as (H1 & H2 & H3 & H4).
  destruct (written_fields cur region d) as (G1 & G2 & G3 & G4).
  apply ResourceData_eq; [congruence | congruence | congruence |].
  rewrite H4, G4. clear. apply map_eq. intros key.
  repeat match goal with
         | |- <[?k := _]> _ !! key = _ =>
             destruct (decide (k = key)) as [<- | ?];
             [now rewrite !lookup_insert_eq |];
             rewrite !(lookup_insert_ne _ k key) by assumption
         end.
  reflexivity.
Qed.

Lemma clientRegion_written (s : St B) (cur : Network.t) (b : B) (t : Z)
    (tr : list Event) :
  clientRegion (mkSt (written cur (clientRegion s) (rd s)) (clientRegion s) b t tr)
  = clientRegion s.
Proof.
  unfold clientRegion at 1, GetOk. cbn [rd Region].
  assert (Hg : Get (written cur (clientRegion s) (rd s)) "region"
               = VString (clientRegion s)) by get_written.
  rewrite Hg. destruct (bool_decide _); reflexivity.
Qed.

(** X9: reading twice is reading once.  When the backend answers two
    listings in a row alike and without an error, the second Read returns
    no error and leaves the resource data as the first Read left them. *)
Theorem resourceNetworkRead_idempotent (s : St B)
    (resp : option (list Network.t)) (b1 b2 : B) :
  ListNetworks (clientRegion s) (backend s) = ((resp, None), b1) ->
  ListNetworks (clientRegion s) b1 = ((resp, None), b2) ->
  fst (resourceNetworkRead (snd (resourceNetworkRead s))) = []
  /\ rd (snd (resourceNetworkRead (snd (resourceNetworkRead s))))
     = rd (snd (resourceNetworkRead s)).
Proof.
  intros H1 H2. rewrite (resourceNetworkRead_listed s resp b1 H1). cbn [snd].
  match goal with |- context [resourceNetworkRead ?st] => set (s1 := st) end.
  assert (Hr : clientRegion s1 = clientRegion s) by apply clientRegion_written.
  assert (H2' : ListNetworks (clientRegion s1) (backend s1) = ((resp, None), b2)).
  { rewrite Hr. exact H2. }
  rewrite (resourceNetworkRead_listed s1 resp b2 H2'). cbn [fst snd rd].
  split; [reflexivity |]. rewrite Hr. subst s1. cbn [rd].
  change (Id (written ?c ?r ?d)) with (Id d).
  apply written_twice.
Qed.

(** X10: the region of one resource stays in the client.  After the Read of
    a resource whose [region] attribute is set, the Read of another resource
    that has no [region] lists the networks in the region of the first
    resource, whatever region the client had before. *)
Theorem region_stays_in_client (s : St B) (d2 : ResourceData) (region : string) :
  Get (rd s) "region" = VString region ->
  region <> "" ->
  Get d2 "region" = VString "" ->
  trace (snd (resourceNetworkRead (withData d2 (snd (resourceNetworkRead s)))))
  = trace s ++ [EvCall (CListNetworks region); EvCall (CListNetworks region)].
Proof.
  intros Hreg Hne Hd2.
  assert (Hr : clientRegion s = region).
  { unfold clientRegion, GetOk. rewrite Hreg.
    rewrite bool_decide_eq_true_2; [reflexivity |].
    change (zeroOf "region") with (VString ""). congruence. }
  destruct (resourceNetworkRead_sends s) as (Ht & HR).
  destruct (resourceNetworkRead_sends
              (withData d2 (snd (resourceNetworkRead s)))) as (Ht2 & _).
  assert (Hr2 : clientRegion (withData d2 (snd (resourceNetworkRead s))) = region).
  { unfold clientRegion, GetOk. cbn [withData rd Region]. rewrite Hd2.
    rewrite bool_decide_eq_false_2.
    - rewrite HR. exact Hr.
    - change (zeroOf "region") with (VString ""). intros H. now apply H. }
  rewrite Ht2, Hr2. cbn [withData trace]. rewrite Ht, Hr, <- app_assoc.
  reflexivity.
Qed.

(** ** More on Create *)

(** X11: when the backend refuses to create the network, the Create handler
    returns a diagnostic with the error, in the form [ParseErrorResponse]
    gives it when the payload parses and as it came otherwise; it has sent
    that one request only, and the resource data, identifier included, are
    as they were. *)
Theorem resourceNetworkCreate_refused (s : St B) (e : error) (b1 : B) :
  CreateNetwork (createConfigs (rd s) (clientRegion s)) (backend s) = (inr e, b1) ->
  let out := resourceNetworkCreate ParseErrorResponse s in
  fst out
  = diag_Errorf "[ERR] failed to create network: %s"
                [AErr (match ParseErrorResponse e with
                       | Some customErr => customErr
                       | None => e
                       end)]
  /\ rd (snd out) = rd s
  /\ trace (snd out)
     = trace s ++ [EvCall (CCreateNetwork (createConfigs (rd s) (clientRegion s)))]
  /\ backend (snd out) = b1.
Proof.
  intros Hc out. subst out. unfold resourceNetworkCreate. run. rewrite Hc. run.
  repeat split.
Qed.

(** X12: the requests of the Create handler.  It asks for the network; only
    when the network is there it asks for the default firewall; only when
    the firewall is there it lists the networks.  It sends nothing else, all
    three requests name the same region, and the client is left set to that
    region. *)
Theorem resourceNetworkCreate_requests (s : St B) :
  let region := clientRegion s in
  let configs := createConfigs (rd s) region in
  let created := CreateNetwork configs (backend s) in
  let out := resourceNetworkCreate ParseErrorResponse s in
  trace (snd out)
  = trace s ++
    map EvCall
      match fst created with
      | inr _ => [CCreateNetwork configs]
      | inl network =>
          let fw := defaultFirewall network region in
          match fst (NewFirewall fw (snd created)) with
          | inr _ => [CCreateNetwork configs; CNewFirewall fw]
          | inl _ => [CCreateNetwork configs; CNewFirewall fw; CListNetworks region]
          end
      end
  /\ NetworkConfig.Region configs = region
  /\ (forall network, FirewallConfig.Region (defaultFirewall network region) = region)
  /\ Region (snd out) = region.
Proof.
  cbv zeta. split; [| split; [| split; [reflexivity |]]].
  - unfold resourceNetworkCreate. run.
    destruct (CreateNetwork _ (backend s)) as [[network | e] b1]; run;
      [| reflexivity].
    unfold createDefaultFirewall. run. unfold defaultFirewall.
    destruct (NewFirewall _ b1) as [[fwr | e] b2]; run.
    + match goal with |- context [resourceNetworkRead ?st] => set (s1 := st) end.
      destruct (resourceNetworkRead_sends s1) as (Ht & _).
      rewrite Ht. subst s1. rewrite clientRegion_ready. cbn [trace].
      rewrite <- !app_assoc. reflexivity.
    + rewrite <- !app_assoc. reflexivity.
  - unfold createConfigs. destruct (0 <? _); reflexivity.
  - unfold resourceNetworkCreate. run.
    destruct (CreateNetwork _ (backend s)) as [[network | e] b1]; run;
      [| reflexivity].
    unfold createDefaultFirewall. run.
    destruct (NewFirewall _ b1) as [[fwr | e] b2]; run; [| reflexivity].
    match goal with |- context [resourceNetworkRead ?st] => set (s1 := st) end.
    destruct (resourceNetworkRead_sends s1) as (_ & HR).
    rewrite HR. subst s1. apply clientRegion_ready.
Qed.

(** X13: a network can be created and forgotten at once.  When the network
    and its firewall have been created and the listing that follows fails
    without returning a slice, the Create handler returns no error and the
    resource data carry no identifier. *)
Theorem resourceNetworkCreate_then_list_fails (s : St B)
    (network : NetworkResult.t) (b1 : B) (fwr : FirewallResult.t) (b2 : B)
    (e : error) (b3 : B) :
  CreateNetwork (createConfigs (rd s) (clientRegion s)) (backend s)
    = (inl network, b1) ->
  NewFirewall (defaultFirewall network (clientRegion s)) b1 = (inl fwr, b2) ->
  ListNetworks (clientRegion s) b2 = ((None, Some e), b3) ->
  let out := resourceNetworkCreate ParseErrorResponse s in
  fst out = []
  /\ Id (rd (snd out)) = ""
  /\ backend (snd out) = b3.
Proof.
  intros Hc Hf Hl out. subst out.
  unfold resourceNetworkCreate. run. rewrite Hc. run.
  unfold createDefaultFirewall. run.
  unfold defaultFirewall in Hf. rewrite Hf. run.
  match goal with |- context [resourceNetworkRead ?st] => set (s1 := st) end.
  assert (Hr : clientRegion s1 = clientRegion s) by apply clientRegion_ready.
  assert (Hl1 : ListNetworks (clientRegion s1) (backend s1) = ((None, Some e), b3)).
  { rewrite Hr. exact Hl. }
  unfold resourceNetworkRead. run. rewrite Hl1. run. repeat split.
Qed.

(** X14: when the network and its firewall have been created, the Create
    handler ends as the Read handler run on the resource data that carry the
    new identifier, against the backend as the two requests have left it. *)
Theorem resourceNetworkCreate_then_read (s : St B) (network : NetworkResult.t)
    (b1 : B) (fwr : FirewallResult.t) (b2 : B) :
  CreateNetwork (createConfigs (rd s) (clientRegion s)) (backend s)
    = (inl network, b1) ->
  NewFirewall (defaultFirewall network (clientRegion s)) b1 = (inl fwr, b2) ->
  exists t,
    resourceNetworkCreate ParseErrorResponse s
    = resourceNetworkRead
        (mkSt (SetId (NetworkResult.ID network) (rd s)) (clientRegion s) b2 t
              (trace s
               ++ [EvCall (CCreateNetwork (createConfigs (rd s) (clientRegion s)));
                   EvCall (CNewFirewall (defaultFirewall network (clientRegion s)))])).
Proof.
  intros Hc Hf. unfold resourceNetworkCreate. run. rewrite Hc. run.
  unfold createDefaultFirewall. run.
  unfold defaultFirewall in *. rewrite Hf. run.
  rewrite <- app_assoc. cbn [app]. eexists. reflexivity.
Qed.

(** ** More on Update *)

Lemma clientRegion_of_ready (s : St B) : clientRegion (ready s) = clientRegion s.
Proof.
  unfold ready, clientRegion, GetOk. cbn [rd Region].
  destruct (bool_decide _); reflexivity.
Qed.

(** Read starts by settling the region, so it does the same from a state in
    which the region is settled already. *)
Lemma resourceNetworkRead_ready (s : St B) :
  resourceNetworkRead (ready s) = resourceNetworkRead s.
Proof.
  unfold resourceNetworkRead.
  rewrite (bind_eq overwriteRegion _ (ready s)), (bind_eq overwriteRegion _ s).
  rewrite !overwriteRegion_eq, clientRegion_of_ready. reflexivity.
Qed.

(** X15: with neither [label] nor [nameservers_v4] changed, the Update
    handler is the Read handler: the same diagnostics and the same state. *)
Theorem resourceNetworkUpdate_unchanged (s : St B) :
  HasChange (rd s) "label" = false ->
  HasChange (rd s) "nameservers_v4" = false ->
  resourceNetworkUpdate s = resourceNetworkRead s.
Proof.
  intros Hlab Hns. unfold resourceNetworkUpdate. run. rewrite Hlab, Hns. run.
  exact (resourceNetworkRead_ready s).
Qed.

(** X16: a rename that fails stops the Update handler.  It returns a
    diagnostic that names the network (the error of the backend is not in
    it); it has sent the rename request only, so the nameservers are not
    updated even when they have changed, and the resource data are not read
    back. *)
Theorem resourceNetworkUpdate_rename_fails (s : St B) (e : error) (b1 : B) :
  HasChange (rd s) "label" = true ->
  RenameNetwork (asString (Get (rd s) "label")) (Id (rd s)) (clientRegion s)
                (backend s) = (inr e, b1) ->
  let out := resourceNetworkUpdate s in
  fst out
  = diag_Errorf "[ERR] An error occurred while renaming the network %s"
                [AStr (Id (rd s))]
  /\ rd (snd out) = rd s
  /\ trace (snd out)
     = trace s ++ [EvCall (CRenameNetwork (asString (Get (rd s) "label"))
                                          (Id (rd s)) (clientRegion s))]
  /\ backend (snd out) = b1.
Proof.
  intros Hlab Hren out. subst out. unfold resourceNetworkUpdate. run.
  rewrite Hlab. run. rewrite Hren. run. repeat split.
Qed.

(** X17: an update of the nameservers that fails stops the Update handler
    as well.  After a rename that succeeded, or none, the handler sends the
    update request, which carries the region and the nameservers and nothing
    else; when it fails the handler returns a diagnostic with the error, and
    the resource data are not read back. *)
Theorem resourceNetworkUpdate_nameservers_fail (s : St B) (e : error) :
  let id := Id (rd s) in
  let region := clientRegion s in
  let rename := CRenameNetwork (asString (Get (rd s) "label")) id region in
  let renamed := RenameNetwork (asString (Get (rd s) "label")) id region (backend s) in
  let b1 := if HasChange (rd s) "label" then snd renamed else backend s in
  let configs :=
    NetworkConfig.mk "" "" region (expandStringList (Get (rd s) "nameservers_v4"))
                     None in
  (HasChange (rd s) "label" = true -> exists nr, fst renamed = inl nr) ->
  HasChange (rd s) "nameservers_v4" = true ->
  fst (UpdateNetwork id configs b1) = inr e ->
  let out := resourceNetworkUpdate s in
  fst out
  = diag_Errorf
      "[ERR] An error occurred while updating the nameservers for the network %s: %s"
      [AStr id; AErr e]
  /\ rd (snd out) = rd s
  /\ trace (snd out)
     = trace s
       ++ (if HasChange (rd s) "label" then [EvCall rename] else [])
       ++ [EvCall (CUpdateNetwork id configs)].
Proof.
  cbv zeta. intros Hren Hns Hupd. unfold resourceNetworkUpdate. run.
  rewrite Hns.
  destruct (HasChange (rd s) "label"); run.
  - destruct (Hren eq_refl) as [nr Hnr].
    destruct (RenameNetwork _ _ _ (backend s)) as [r b1]. cbn [fst snd] in *.
    subst r. run.
    destruct (UpdateNetwork _ _ b1) as [u b2]. cbn [fst snd] in *. subst u. run.
    rewrite <- app_assoc. repeat split.
  - destruct (UpdateNetwork _ _ (backend s)) as [u b2]. cbn [fst snd] in *.
    subst u. run. repeat split.
Qed.

(** X18: when its requests succeed, the Update handler ends as the Read
    handler run in the state the requests have left: the rename first when
    the label has changed, the update of the nameservers next when they
    have changed, the resource data untouched until the read-back. *)
Theorem resourceNetworkUpdate_then_read (s : St B) :
  let id := Id (rd s) in
  let region := clientRegion s in
  let rename := CRenameNetwork (asString (Get (rd s) "label")) id region in
  let renamed := RenameNetwork (asString (Get (rd s) "label")) id region (backend s) in
  let b1 := if HasChange (rd s) "label" then snd renamed else backend s in
  let configs :=
    NetworkConfig.mk "" "" region (expandStringList (Get (rd s) "nameservers_v4"))
                     None in
  let b2 := if HasChange (rd s) "nameservers_v4"
            then snd (UpdateNetwork id configs b1) else b1 in
  (HasChange (rd s) "label" = true -> exists nr, fst renamed = inl nr) ->
  (HasChange (rd s) "nameservers_v4" = true ->
   exists nr, fst (UpdateNetwork id configs b1) = inl nr) ->
  exists t,
    resourceNetworkUpdate s
    = resourceNetworkRead
        (mkSt (rd s) region b2 t
              (trace s
               ++ (if HasChange (rd s) "label" then [EvCall rename] else [])
               ++ (if HasChange (rd s) "nameservers_v4"
                   then [EvCall (CUpdateNetwork id configs)] else []))).
Proof.
  cbv zeta. intros Hren Hupd. unfold resourceNetworkUpdate. run.
  destruct (HasChange (rd s) "label"); run;
    [destruct (Hren eq_refl) as [nr Hnr];
     destruct (RenameNetwork _ _ _ (backend s)) as [r b1]; cbn [fst snd] in *;
     subst r; run |];
    (destruct (HasChange (rd s) "nameservers_v4"); run;
     [destruct (Hupd eq_refl) as [ur Hur];
      match goal with
      | |- context [UpdateNetwork ?i ?c ?b] =>
          destruct (UpdateNetwork i c b) as [u b2]
      end; cbn [fst snd] in *; subst u; run |]);
    rewrite <- ?app_assoc; cbn [app]; rewrite ?app_nil_r;
    eexists; reflexivity.
Qed.

(** ** More on Delete *)

(** X19: one run of the refresh closure of the Delete handler.  It leaves
    the resource data and the client's region alone.  Without an error it
    returns a result that is not nil and a state that the configuration of
    the poller knows, pending or target; with an error it returns the empty
    state.  It always sends the delete request, and the existence check
    after it only when the delete reported success. *)
Theorem deleteRefresh_well_formed (id : string) (s : St B) :
  let out := deleteRefresh id s in
  let conf := deleteStateConf id in
  let delete := EvCall (CDeleteNetwork id (Region s)) in
  let check := EvCall (CGetNetwork id (Region s)) in
  rd (snd out) = rd s
  /\ Region (snd out) = Region s
  /\ (err (fst out) = None ->
      res (fst out) <> None
      /\ In (currentState (fst out)) (Pending conf ++ Target conf))
  /\ (err (fst out) <> None -> currentState (fst out) = "")
  /\ (trace (snd out) = trace s ++ [delete]
      \/ trace (snd out) = trace s ++ [delete; check]
         /\ exists resp,
              fst (DeleteNetwork id (Region s) (backend s)) = inl resp
              /\ SimpleResponse.Result resp = "success").
Proof.
  cbv zeta. unfold deleteRefresh. run.
  assert (Hnil : forall A (x : A), Some x <> None) by discriminate.
  destruct (DeleteNetwork id (Region s) (backend s)) as [[resp | e] b1]; run;
    [destruct (bool_decide (SimpleResponse.Result resp = "success")) eqn:Hok; run;
     [apply bool_decide_eq_true in Hok;
      destruct (GetNetwork id (Region s) b1) as [[net | e] b2]; run;
      [| destruct (is_DatabaseNetworkNotFoundError e); run] |] |];
    (split; [reflexivity |]); (split; [reflexivity |]);
    (split;
     [intros H; first [discriminate H | split; [apply Hnil | cbn; tauto]] |]);
    (split; [intros H; first [reflexivity | now contradiction H] |]);
    first [ left; reflexivity
          | right; rewrite <- app_assoc;
            split; [reflexivity | exists resp; split; [reflexivity | exact Hok]] ].
Qed.

Lemma roundsFrom_frame (id : string) (n : nat) (ws : Z * St B) :
  rd (snd (roundsFrom id n ws)) = rd (snd ws)
  /\ Region (snd (roundsFrom id n ws)) = Region (snd ws).
Proof.
  induction n as [| n [IH1 IH2]]; [split; reflexivity |].
  change (roundsFrom id (S n) ws) with (afterRound id (roundsFrom id n ws)).
  destruct (afterRound_frame id (roundsFrom id n ws)) as [H1 H2].
  split; congruence.
Qed.

(** X20: the Delete handler never changes the resource data.  Whether it
    ends with success or with a diagnostic, the identifier and the
    attributes are as they were; the handler does not clear the identifier
    of the network it has deleted.  The client is left set to the region of
    the resource. *)
Theorem resourceNetworkDelete_frame (s : St B) :
  exists ds s',
    resourceNetworkDelete s = Some (ds, s')
    /\ rd s' = rd s
    /\ Region s' = clientRegion s.
Proof.
  destruct (refreshLoop_budget s) as ([r s'] & Hloop).
  destruct (refreshLoop_stops _ _ _ (0, polling s) _ _ _ _ Hloop) as (n & Hn).
  destruct (roundsFrom_frame (Id (rd s)) n (0, polling s)) as [H1 H2].
  cbn [fst snd] in H1, H2.
  assert (Hres : exists ds, resourceNetworkDelete s = Some (ds, s')).
  { rewrite resourceNetworkDelete_eq, Hloop. destruct r as [v [e |]]; eauto. }
  destruct Hres as [ds Hres]. exists ds, s'. split; [exact Hres |].
  destruct Hn as [-> | ->]; cbn [sleep snd rd Region]; rewrite H1, H2;
    split; reflexivity.
Qed.

End Properties.

(** * The properties on concrete runs *)

(** The first poll on a backend that deletes [net-1] at once: the delete
    request reports success, the existence check answers not found, and
    the poller ends without an error. *)
Lemma refresh_after_successful_delete_witness :
  refreshLoop 1 (deleteStateConf "net-1") 3600000 0 0 ""
              (start d1 "LON1" (goneAfter 0))
  = Some ((Some (RResp okResp), None),
          snd (deleteRefresh "net-1" (snd (sleep 0 (start d1 "LON1" (goneAfter 0)))))).
Proof.
  refine (proj2 (proj2 (proj1
            (refresh_after_successful_delete "net-1" 3600000 0 0 "" 0
               (start d1 "LON1" (goneAfter 0)) okResp _ eq_refl eq_refl _ _)
            eq_refl)));
    reflexivity.
Defined.

(** Three polls: [net-1] is still found twice and gone at the third existence
    check.  The handler reports success after three pairs of requests. *)
Lemma delete_succeeds_on_Nth_poll_witness :
  exists s',
    resourceNetworkDelete (start d1 "LON1" (goneAfter 2)) = Some ([], s')
    /\ callsOf (trace s') =
       concat (repeat [CDeleteNetwork "net-1" "LON1"; CGetNetwork "net-1" "LON1"] 3).
Proof.
  destruct (delete_succeeds_on_Nth_poll (start d1 "LON1" (goneAfter 2)) 3)
    as (s' & evs & H & _ & Ht & Hc).
  - lia.
  - intros k Hk. exists okResp.
    destruct k as [| [| k]]; [reflexivity | reflexivity | lia].
  - exists okResp. reflexivity.
  - reflexivity.
  - exists s'. split; [exact H |]. rewrite Ht. exact Hc.
Defined.

(** On the steady backend that always finds the network, the handler ends
    with the timeout error after one hour.  On the backend whose first
    existence check fails, the handler ends with that error after the first
    poll; a second poll would find the network gone within nine seconds, but
    it is never made. *)
Lemma delete_without_not_found_fails_witness :
  (exists st s',
      resourceNetworkDelete (mkSt d1 "LON1" (steady true) 0 [])
      = Some (deleteDiagnostics "net-1" (TimeoutError st 3600000), s'))
  /\ isGone (answerFrom "net-1" (0, polling (start d1 "LON1" checkFailsFirst)) 1)
     = true
  /\ finishFrom "net-1" (0, polling (start d1 "LON1" checkFailsFirst)) 1 = 8600
  /\ fst <$> resourceNetworkDelete (start d1 "LON1" checkFailsFirst)
     = Some (deleteDiagnostics "net-1" (ClientError "service unavailable")).
Proof.
  split; [| split; [reflexivity | split; [reflexivity |]]].
  - destruct (delete_without_not_found_fails (mkSt d1 "LON1" (steady true) 0 []))
      as (e & s' & H & _ & Ht & _).
    + intros k _ _. reflexivity.
    + destruct Ht as [st ->]; [intros k _ _; reflexivity |].
      exists st, s'. exact H.
  - destruct (delete_without_not_found_fails (start d1 "LON1" checkFailsFirst))
      as (e & s' & H & _ & _ & He).
    + intros [| k] Hprev Hfin; [reflexivity |].
      specialize (Hprev 0%nat ltac:(lia)). vm_compute in Hprev. discriminate Hprev.
    + rewrite H.
      rewrite (He 0%nat (ClientError "service unavailable")
                  ltac:(intros k Hk; lia) eq_refl ltac:(right; reflexivity)).
      reflexivity.
Defined.

(** On the steady backend whose existence check always fails with an error
    of the service, no poll ever finds the network gone, and yet the handler
    does not report a timeout: it reports the error of the service, after
    the first poll. *)
Lemma delete_check_error_counterexample :
  (forall k,
     isGone (answerFrom "net-1" (0, polling (mkSt d1 "LON1" (steady false) 0 [])) k)
     = false)
  /\ fst <$> resourceNetworkDelete (mkSt d1 "LON1" (steady false) 0 [])
     = Some (deleteDiagnostics "net-1" (ClientError "service unavailable"))
  /\ (forall st t, ClientError "service unavailable" <> TimeoutError st t).
Proof.
  split; [intros k; reflexivity | split; [vm_compute; reflexivity | discriminate]].
Qed.


(** The backend creates [net-1] and refuses the firewall: Create returns an
    error, and the resource data carry the identifier [net-1]. *)
Lemma create_default_firewall_witness :
  HasError (fst (resourceNetworkCreate noParse (start d0 "LON1" noFirewall))) = true
  /\ Id (rd (snd (resourceNetworkCreate noParse (start d0 "LON1" noFirewall))))
     = "net-1".
Proof.
  edestruct (create_default_firewall noParse (start d0 "LON1" noFirewall)
               (NetworkResult.mk "net-1" "lab" "success"))
    as (_ & _ & _ & H); [reflexivity |].
  edestruct (H (ClientError "firewall quota reached"))
    as (_ & He & Hid & _); [reflexivity |].
  split; [exact He | exact Hid].
Defined.

(** The backend creates [net-1] and lists it after [net-2]: the name and the
    nameservers written are those listed for [net-1]. *)
Lemma create_read_roundtrip_witness :
  Get (rd (snd (resourceNetworkCreate noParse (start d0 "LON1" creating)))) "name"
  = VString "cust-1-net"
  /\ expandStringList
       (Get (rd (snd (resourceNetworkCreate noParse (start d0 "LON1" creating))))
            "nameservers_v4")
     = ["8.8.8.8"; "1.1.1.1"].
Proof.
  edestruct (create_read_roundtrip noParse (start d0 "LON1" creating)
               (NetworkResult.mk "net-1" "lab" "success"))
    with (fwr := FirewallResult.mk "fw-1" "lab-default" "success")
         (pre := [net2]) (post := @nil Network.t) (net := net1)
    as (_ & _ & Hname & _ & _ & _ & _ & Hns & _);
    [reflexivity | reflexivity | reflexivity | reflexivity | constructor |].
  split; [exact Hname | exact Hns].
Defined.

(** The same configuration against the same backend, which answers both runs
    alike and names no region in any answer, through a client set to region
    LON1 and through one set to NYC1: the regions written differ, each being
    the client's. *)
Lemma roundtrip_region_counterexample :
  let out1 := resourceNetworkCreate noParse (start d0 "LON1" creating) in
  let out2 := resourceNetworkCreate noParse (start d0 "NYC1" creating) in
  fst out1 = [] /\ fst out2 = []
  /\ backend (snd out1) = backend (snd out2)
  /\ Get (rd (snd out1)) "region" = VString "LON1"
  /\ Get (rd (snd out2)) "region" = VString "NYC1"
  /\ Get (rd (snd out1)) "region" <> Get (rd (snd out2)) "region".
Proof. vm_compute. repeat split; discriminate. Qed.

(** C2: a run of the Read handler in which the backend lists the networks
    without [net-1], the network of the resource.  The handler returns no
    error and overwrites the attributes with zero values, but the
    identifier stays [net-1]: it is not cleared. *)
Theorem read_unlisted_network_keeps_id :
  let out := resourceNetworkRead (start d1 "LON1" listingOthers) in
  fst out = []
  /\ Id (rd (snd out)) = "net-1"
  /\ Get (rd (snd out)) "label" = VString ""
  /\ Get (rd (snd out)) "name" = VString "".
Proof. vm_compute. repeat split. Qed.

(** A list request that fails and returns no slice: Read clears the
    identifier of [net-1] and returns no error. *)
Lemma resourceNetworkRead_gone_witness :
  fst (resourceNetworkRead (start d1 "LON1" emptyScript)) = []
  /\ Id (rd (snd (resourceNetworkRead (start d1 "LON1" emptyScript)))) = "".
Proof.
  edestruct (resourceNetworkRead_gone (start d1 "LON1" emptyScript))
    as [Hd Hrd]; [reflexivity |].
  split; [exact Hd | now rewrite Hrd].
Defined.

(** * More concrete runs *)

(** A listing that comes with an error and a slice: Read returns an error
    and keeps the identifier [net-1]. *)
Lemma resourceNetworkRead_list_error_witness :
  HasError (fst (resourceNetworkRead (start d1 "LON1" listingPartial))) = true
  /\ Id (rd (snd (resourceNetworkRead (start d1 "LON1" listingPartial)))) = "net-1".
Proof.
  edestruct (resourceNetworkRead_list_error (start d1 "LON1" listingPartial))
    as [Hd Hrd]; [reflexivity |].
  rewrite Hd, Hrd. split; reflexivity.
Defined.

(** The name Read writes for [net-1] is a string, as the schema declares. *)
Lemma resourceNetworkRead_well_typed_witness :
  exists sch,
    ResourceNetworkSchema !! "name" = Some sch
    /\ typeOf (VString "cust-1-net") = Schema.Type_ sch.
Proof.
  edestruct (resourceNetworkRead_well_typed (start d1 "LON1" listingTwice)
               "name" (VString "cust-1-net")) as [H | H];
    [vm_compute; reflexivity | discriminate H | exact H].
Defined.

(** Two listings of [net-2] and [net-1] in a row: the second Read changes
    nothing. *)
Lemma resourceNetworkRead_idempotent_witness :
  rd (snd (resourceNetworkRead
             (snd (resourceNetworkRead (start d1 "LON1" listingTwice)))))
  = rd (snd (resourceNetworkRead (start d1 "LON1" listingTwice))).
Proof.
  edestruct (resourceNetworkRead_idempotent (start d1 "LON1" listingTwice))
    as [_ H]; [reflexivity | reflexivity |].
  exact H.
Defined.

(** A client set to LON1 reads a resource of region NYC1 and then a resource
    without a region: both listings go to NYC1. *)
Lemma region_stays_in_client_witness :
  trace (snd (resourceNetworkRead
                (withData d0 (snd (resourceNetworkRead
                                     (start dNYC "LON1" listingTwice))))))
  = [EvCall (CListNetworks "NYC1"); EvCall (CListNetworks "NYC1")].
Proof.
  apply (region_stays_in_client (start dNYC "LON1" listingTwice) d0 "NYC1");
    [reflexivity | discriminate | reflexivity].
Defined.

(** The backend refuses the network: Create returns an error and the
    resource data carry no identifier. *)
Lemma resourceNetworkCreate_refused_witness :
  HasError (fst (resourceNetworkCreate noParse (start d0 "LON1" refusing))) = true
  /\ Id (rd (snd (resourceNetworkCreate noParse (start d0 "LON1" refusing)))) = "".
Proof.
  edestruct (resourceNetworkCreate_refused noParse (start d0 "LON1" refusing))
    as (Hd & Hrd & _); [reflexivity |].
  rewrite Hd, Hrd. split; reflexivity.
Defined.

(** The network and the firewall are created and the listing fails: Create
    returns no error and no identifier. *)
Lemma resourceNetworkCreate_then_list_fails_witness :
  fst (resourceNetworkCreate noParse (start d0 "LON1" notListing)) = []
  /\ Id (rd (snd (resourceNetworkCreate noParse (start d0 "LON1" notListing)))) = "".
Proof.
  edestruct (resourceNetworkCreate_then_list_fails noParse
               (start d0 "LON1" notListing) okResult)
    as (Hd & Hid & _); [reflexivity | reflexivity | reflexivity |].
  split; [exact Hd | exact Hid].
Defined.

(** Create against the backend that creates and lists [net-1] gives the
    diagnostics of the Read that follows the two requests. *)
Lemma resourceNetworkCreate_then_read_witness :
  exists t,
    resourceNetworkCreate noParse (start d0 "LON1" creating)
    = resourceNetworkRead
        (mkSt (SetId "net-1" d0) "LON1"
              (mkScript [] [(Some [net2; net1], None)] [] [] [] [] [] 150) t
              [EvCall (CCreateNetwork (createConfigs d0 "LON1"));
               EvCall (CNewFirewall (defaultFirewall okResult "LON1"))]).
Proof.
  edestruct (resourceNetworkCreate_then_read noParse (start d0 "LON1" creating)
               okResult) as [t H]; [reflexivity | reflexivity |].
  exists t. exact H.
Defined.

(** Nothing has changed on [net-1]: Update is Read. *)
Lemma resourceNetworkUpdate_unchanged_witness :
  resourceNetworkUpdate (start d1 "LON1" listingOthers)
  = resourceNetworkRead (start d1 "LON1" listingOthers).
Proof.
  apply (resourceNetworkUpdate_unchanged (start d1 "LON1" listingOthers));
    reflexivity.
Defined.

(** The rename is refused: Update returns an error after that one request,
    although the nameservers have changed too. *)
Lemma resourceNetworkUpdate_rename_fails_witness :
  HasError (fst (resourceNetworkUpdate (start dChanged "LON1" notRenaming))) = true
  /\ trace (snd (resourceNetworkUpdate (start dChanged "LON1" notRenaming)))
     = [EvCall (CRenameNetwork "lab2" "net-1" "LON1")].
Proof.
  edestruct (resourceNetworkUpdate_rename_fails (start dChanged "LON1" notRenaming))
    as (Hd & _ & Ht & _); [reflexivity | reflexivity |].
  rewrite Hd, Ht. split; reflexivity.
Defined.

(** The rename succeeds and the update is refused: Update returns an error
    after the two requests and does not list. *)
Lemma resourceNetworkUpdate_nameservers_fail_witness :
  HasError (fst (resourceNetworkUpdate (start dChanged "LON1" notUpdating))) = true
  /\ callsOf (trace (snd (resourceNetworkUpdate (start dChanged "LON1" notUpdating))))
     = [CRenameNetwork "lab2" "net-1" "LON1";
        CUpdateNetwork "net-1" (NetworkConfig.mk "" "" "LON1" ["1.1.1.1"] None)].
Proof.
  edestruct (resourceNetworkUpdate_nameservers_fail
               (start dChanged "LON1" notUpdating))
    as (Hd & _ & Ht);
    [intros _; eexists; reflexivity | reflexivity | reflexivity |].
  rewrite Hd, Ht. split; reflexivity.
Defined.

(** The rename and the update succeed: Update ends as the Read that follows
    them. *)
Lemma resourceNetworkUpdate_then_read_witness :
  exists t,
    resourceNetworkUpdate (start dChanged "LON1" updating)
    = resourceNetworkRead
        (mkSt dChanged "LON1"
              (mkScript [] [(Some [net1], None)] [] [] [] [] [] 150) t
              [EvCall (CRenameNetwork "lab2" "net-1" "LON1");
               EvCall (CUpdateNetwork "net-1"
                         (NetworkConfig.mk "" "" "LON1" ["1.1.1.1"] None))]).
Proof.
  edestruct (resourceNetworkUpdate_then_read (start dChanged "LON1" updating))
    as [t H];
    [intros _; eexists; reflexivity | intros _; eexists; reflexivity |].
  exists t. exact H.
Defined.
